(** * G-code Sender (sender.py): line classifier, program loader and
      streaming state machine

    A shallow embedding of [sender.py].  Text is [String.string]: every
    character is a code point below 256.  Python's [str.strip], the regular
    expressions [GCODE_LINE_RE] and [COMMENT_RE], [str.splitlines] and the
    axis scan of [_tick] are written out as scanners over such strings; the
    window with its [SenderState], its [SerialWorker] and its timers is a
    record, and every slot of the window is a function from the window to
    the next window and the list of calls it made on the log, the message
    boxes and the progress bar. *)

From Stdlib Require Import String Ascii List Bool ZArith QArith Lia.
Import ListNotations.

Local Open Scope string_scope.
Local Open Scope Z_scope.

(** ** Python [str] primitives *)

Module Str.

(** [str.isspace] on one character, also the class [\s] of [re] on [str]
    patterns: TAB..CR, FS..US, SPACE, NEL and NBSP. *)
Definition isspace (c : ascii) : bool :=
  let n := N_of_ascii c in
  ((9 <=? n) && (n <=? 13) || (28 <=? n) && (n <=? 32)
   || (n =? 133) || (n =? 160))%N.

(** The class [\d] of [re]: the only decimal digits below 256. *)
Definition isdigit (c : ascii) : bool :=
  let n := N_of_ascii c in ((48 <=? n) && (n <=? 57))%N.

Fixpoint lstrip (s : string) : string :=
  match s with
  | String c t => if isspace c then lstrip t else s
  | EmptyString => EmptyString
  end.

Fixpoint rstrip (s : string) : string :=
  match s with
  | String c t =>
      match rstrip t with
      | EmptyString => if isspace c then EmptyString else String c EmptyString
      | r => String c r
      end
  | EmptyString => EmptyString
  end.

(** [s.strip()] *)
Definition strip (s : string) : string := rstrip (lstrip s).

(** [s.startswith(p)] *)
Fixpoint startswith (s p : string) : bool :=
  match p, s with
  | EmptyString, _ => true
  | String a p', String b s' => (a =? b)%char && startswith s' p'
  | String _ _, EmptyString => false
  end.

(** [str.upper] and [str.lower] on the ASCII letters.  The other
    characters are left as they are: none of them maps to an ASCII letter,
    digit, sign or dot, which is all the callers look at. *)
Definition upper_char (c : ascii) : ascii :=
  let n := N_of_ascii c in
  if ((97 <=? n) && (n <=? 122))%N then ascii_of_N (n - 32) else c.

Definition lower_char (c : ascii) : ascii :=
  let n := N_of_ascii c in
  if ((65 <=? n) && (n <=? 90))%N then ascii_of_N (n + 32) else c.

Fixpoint upper (s : string) : string :=
  match s with
  | String c t => String (upper_char c) (upper t)
  | EmptyString => EmptyString
  end.

Fixpoint lower (s : string) : string :=
  match s with
  | String c t => String (lower_char c) (lower t)
  | EmptyString => EmptyString
  end.

(** Line boundaries of [str.splitlines]: LF, VT, FF, CR, FS, GS, RS, NEL. *)
Definition is_linebreak (c : ascii) : bool :=
  let n := N_of_ascii c in
  ((10 <=? n) && (n <=? 13) || (28 <=? n) && (n <=? 30) || (n =? 133))%N.

(** [splitlines_from line s]: [line] is the text read since the last
    boundary.  CR LF is one boundary; a last line is kept only when it is
    not empty. *)
Fixpoint splitlines_from (line s : string) : list string :=
  match s with
  | EmptyString =>
      match line with EmptyString => [] | _ => [line] end
  | String c t =>
      if is_linebreak c then
        match c, t with
        | "013"%char, String "010"%char t' => line :: splitlines_from "" t'
        | _, _ => line :: splitlines_from "" t
        end
      else splitlines_from (line ++ String c "") t
  end.

(** [text.splitlines()] *)
Definition splitlines (text : string) : list string :=
  splitlines_from "" text.

(** [\s*$] from here: only white space is left. *)
Fixpoint all_space (s : string) : bool :=
  match s with
  | String c t => isspace c && all_space t
  | EmptyString => true
  end.

End Str.

(** ** Utilities of sender.py *)

(** The class [[GMT]] *)
Definition is_GMT (c : ascii) : bool :=
  (c =? "G")%char || (c =? "M")%char || (c =? "T")%char.

(** [GCODE_LINE_RE.match(s)] for
    [GCODE_LINE_RE = re.compile(r"^\s*([GMT]\d+|;|#|\()")]: white space is
    skipped, then one of the four alternatives has to start the rest. *)
Definition GCODE_LINE_RE_match (s : string) : bool :=
  match Str.lstrip s with
  | String c r =>
      is_GMT c && match r with String d _ => Str.isdigit d | EmptyString => false end
      || (c =? ";")%char || (c =? "#")%char || (c =? "(")%char
  | EmptyString => false
  end.

(** [is_gcode_line]:
    [ln = line.strip()]
    [bool(ln and not ln.startswith((';', '(')) and GCODE_LINE_RE.match(ln))] *)
Definition is_gcode_line (line : string) : bool :=
  let ln := Str.strip line in
  negb (ln =? "")%string
  && negb (Str.startswith ln ";" || Str.startswith ln "(")
  && GCODE_LINE_RE_match ln.

(** [COMMENT_RE = re.compile(r"\s*(;.*|\(.*\))\s*$")], piece by piece.
    [.] is any character but LF, and [$] is the end of the text (a last LF
    before it is white space, which [\s*] has taken). *)
Module CommentRe.

Definition dot (c : ascii) : bool := negb (c =? "010")%char.

(** [.*\s*$] : the rest of a [;] comment. *)
Fixpoint semicolon_rest (s : string) : bool :=
  Str.all_space s
  || match s with
     | String c t => dot c && semicolon_rest t
     | EmptyString => false
     end.

(** [.*\)\s*$] : the rest of a [(] comment, up to a [)] that ends the
    text. *)
Fixpoint paren_rest (s : string) : bool :=
  match s with
  | String c t =>
      (c =? ")")%char && Str.all_space t || dot c && paren_rest t
  | EmptyString => false
  end.

(** The whole pattern, anchored where [s] starts. *)
Definition match_here (s : string) : bool :=
  match Str.lstrip s with
  | String c t =>
      (c =? ";")%char && semicolon_rest t || (c =? "(")%char && paren_rest t
  | EmptyString => false
  end.

(** [COMMENT_RE.sub("", s)]: the leftmost match is cut out; it runs to the
    end of the text, so nothing is left to scan after it. *)
Fixpoint sub (s : string) : string :=
  if match_here s then EmptyString
  else match s with
       | String c t => String c (sub t)
       | EmptyString => EmptyString
       end.

End CommentRe.

(** [strip_comment]: [COMMENT_RE.sub("", line).strip()] *)
Definition strip_comment (line : string) : string :=
  Str.strip (CommentRe.sub line).

(** The list comprehension of [open_gcode]:
    [[strip_comment(l) for l in raw if is_gcode_line(l)]] *)
Definition load_lines (raw : list string) : list string :=
  map strip_comment (filter is_gcode_line raw).

(** The program of a source text: [f.read().splitlines()], then the
    comprehension. *)
Definition load_program (text : string) : list string :=
  load_lines (Str.splitlines text).


(** ** The axis scan of [_tick] *)

Module Axis.

(** The class [[XYZ]] *)
Definition is_XYZ (c : ascii) : bool :=
  (c =? "X")%char || (c =? "Y")%char || (c =? "Z")%char.

(** The longest run of digits that starts [s], and what follows it. *)
Fixpoint span_digits (s : string) : string * string :=
  match s with
  | String c t =>
      if Str.isdigit c
      then let (ds, r) := span_digits t in (String c ds, r)
      else (EmptyString, s)
  | EmptyString => (EmptyString, EmptyString)
  end.

(** [[XYZ]-?\d+\.?\d*] anchored where [s] starts: the text matched. *)
Definition token_here (s : string) : option string :=
  match s with
  | String c t =>
      if is_XYZ c then
        let (sign, t1) :=
          match t with
          | String "-"%char t' => ("-", t')
          | _ => ("", t)
          end in
        let (ds, t2) := span_digits t1 in
        match ds with
        | EmptyString => None
        | _ =>
            let (point, t3) :=
              match t2 with
              | String "."%char t' => (".", t')
              | _ => ("", t2)
              end in
            let (fs, _) := span_digits t3 in
            Some (String c (sign ++ ds ++ point ++ fs))
        end
      else None
  | EmptyString => None
  end.

(** [re.findall(r"[XYZ]-?\d+\.?\d*", s)]: the matches from left to right;
    after a match the scan goes on behind it ([skip] characters of it are
    still to be passed). *)
Fixpoint findall_from (skip : nat) (s : string) : list string :=
  match s with
  | String _ t =>
      match skip with
      | S k => findall_from k t
      | O =>
          match token_here s with
          | Some tok => tok :: findall_from (String.length tok - 1) t
          | None => findall_from 0 t
          end
      end
  | EmptyString => []
  end.

Definition findall (s : string) : list string := findall_from 0 s.

Definition digit_value (c : ascii) : Z := Z.of_N (N_of_ascii c - 48).

(** The number a numeral [\d+\.?\d*] denotes. *)
Fixpoint decimal (s : string) (after_point : bool) (num : Z) (den : positive) : Q :=
  match s with
  | String c t =>
      if Str.isdigit c
      then decimal t after_point (10 * num + digit_value c)
                   (if after_point then 10 * den else den)
      else decimal t true num den
  | EmptyString => num # den
  end.

(** [float(s)] on the numerals [-?\d+\.?\d*] of the scan, as the rational
    the numeral denotes.  Python keeps the double nearest to it, and [inf]
    when the numeral is too large for a double: see [is_inf]. *)
Definition float (s : string) : Q :=
  Qred match s with
       | String "-"%char t => Qopp (decimal t false 0 1)
       | _ => decimal s false 0 1
       end.

(** The number is read as [inf] or [-inf]: its size is at least
    [2^1024 - 2^970], half a step beyond the largest double. *)
Definition is_inf (q : Q) : bool :=
  ((2 ^ 1024 - 2 ^ 970) * Z.pos (Qden q) <=? Z.abs (Qnum q))%Z.

(** A [dict] from axis letters to numbers, in insertion order. *)
Definition dict := list (ascii * Q).

(** [d[k] = v] *)
Fixpoint dict_set (k : ascii) (v : Q) (d : dict) : dict :=
  match d with
  | (k', v') :: r =>
      if (k' =? k)%char then (k, v) :: r else (k', v') :: dict_set k v r
  | [] => [(k, v)]
  end.

(** [d.get(k, default)] *)
Fixpoint dict_get (k : ascii) (d : dict) (default : Q) : Q :=
  match d with
  | (k', v') :: r => if (k' =? k)%char then v' else dict_get k r default
  | [] => default
  end.

(** [{c[0]: float(c[1:]) for c in m}] *)
Definition coords_of (m : list string) : dict :=
  fold_left
    (fun d c =>
       match c with
       | String k num => dict_set k (float num) d
       | EmptyString => d
       end)
    m [].

(** The three arguments [_tick] passes to [update_tool] for a line:
    [m = re.findall(..., line.upper())], [coords = {...}],
    [coords.get("X", 0.0)], [coords.get("Y", 0.0)], [coords.get("Z", 0.0)]. *)
Definition tool_of_line (line : string) : Q * Q * Q :=
  let coords := coords_of (findall (Str.upper line)) in
  (dict_get "X" coords 0, dict_get "Y" coords 0, dict_get "Z" coords 0).

End Axis.

(** ** The 3-D preview: path of [plot_gcode] *)

Module Preview.

(** [re.search(rf"{axis}(-?\d+(\.\d+)?)", s)], group 1: the first place
    where the axis letter is followed by a numeral; the fraction is taken
    only when a digit follows the point. *)
Definition group_here (axis : ascii) (s : string) : option string :=
  match s with
  | String c t =>
      if (c =? axis)%char then
        let (sign, t1) :=
          match t with
          | String "-"%char t' => ("-", t')
          | _ => ("", t)
          end in
        let (ds, t2) := Axis.span_digits t1 in
        match ds with
        | EmptyString => None
        | _ =>
            match t2 with
            | String "."%char t' =>
                let (fs, _) := Axis.span_digits t' in
                match fs with
                | EmptyString => Some (sign ++ ds)
                | _ => Some (sign ++ ds ++ "." ++ fs)
                end
            | _ => Some (sign ++ ds)
            end
        end
      else None
  | EmptyString => None
  end.

Fixpoint search (axis : ascii) (s : string) : option string :=
  match group_here axis s with
  | Some g => Some g
  | None =>
      match s with
      | String _ t => search axis t
      | EmptyString => None
      end
  end.

(** [get(axis, default)] of [plot_gcode] *)
Definition get (s : string) (axis : ascii) (default : Q) : Q :=
  match search axis s with
  | Some g => Axis.float g
  | None => default
  end.

(** One turn of the loop of [plot_gcode]: the position after line [ln],
    from the position [(x, y, z)] before it. *)
Definition plot_line (p : Q * Q * Q) (ln : string) : Q * Q * Q :=
  let '(x, y, z) := p in
  let s := Str.upper (strip_comment ln) in
  if negb (is_gcode_line s) then p
  else if Str.startswith s "G0" || Str.startswith s "G1"
       then (get s "X" x, get s "Y" y, get s "Z" z)
       else p.

(** Where the plotted path of [plot_gcode(lines)] ends; it starts at the
    origin. *)
Definition plot_end (lines : list string) : Q * Q * Q :=
  fold_left plot_line lines (0, 0, 0)%Q.

(** The positions of the path, line after line. *)
Fixpoint plot_points (p : Q * Q * Q) (lines : list string) : list (Q * Q * Q) :=
  match lines with
  | ln :: r => plot_line p ln :: plot_points (plot_line p ln) r
  | [] => []
  end.

(** [plot_gcode(lines)] raises: a coordinate of the path is [inf], which
    [set_xlim], [set_ylim] and [set_zlim] refuse as a limit of the axes.
    This is after [self.ax.clear()] and before the tool marker is made
    anew. *)
Definition plot_raises (lines : list string) : bool :=
  existsb (fun p : Q * Q * Q =>
             let '(x, y, z) := p in
             Axis.is_inf x || Axis.is_inf y || Axis.is_inf z)
          (plot_points (0, 0, 0)%Q lines).

End Preview.

(** ** State *)

(** [@dataclass class SenderState] *)
Record SenderState := mkSenderState {
  gcode_lines : list string;
  index : Z;
  running : bool;
  paused : bool;
  ok_to_send : bool
}.

(** [SenderState(gcode_lines=lines)], with the defaults of the class. *)
Definition new_state (lines : list string) : SenderState :=
  mkSenderState lines 0 false false true.

(** [len(l)] *)
Definition len {A} (l : list A) : Z := Z.of_nat (length l).

(** [l[i]]: a negative index counts from the end; [None] is [IndexError]. *)
Definition getitem {A} (l : list A) (i : Z) : option A :=
  if 0 <=? i then nth_error l (Z.to_nat i)
  else if - len l <=? i then nth_error l (Z.to_nat (len l + i))
  else None.

(** The thread of a [QThread]: [start()] was called and [run()] has not
    begun, [run()] is executing, [run()] has returned. *)
Inductive Thread := Starting | Executing | Finished.

(** [class SerialWorker(QThread)]: [_running], the queue [_tx] and the
    thread. *)
Record SerialWorker := mkWorker {
  _running : bool;
  _tx : list string;
  thread : Thread
}.

(** [SerialWorker(port, baud)] followed by [start()] *)
Definition new_worker : SerialWorker := mkWorker false [] Starting.

(** [QThread.isRunning()] *)
Definition isRunning (k : SerialWorker) : bool :=
  match thread k with Finished => false | _ => true end.

(** [SerialWorker.is_connected] *)
Definition is_connected (k : SerialWorker) : bool := _running k.

(** [SerialWorker.stop()] *)
Definition worker_stop (k : SerialWorker) : SerialWorker :=
  mkWorker false (_tx k) (thread k).

(** [SerialWorker.send_line(line)] *)
Definition send_line (line : string) (k : SerialWorker) : SerialWorker :=
  mkWorker (_running k) (_tx k ++ [line])%list (thread k).

(** What a slot writes to the log. *)
Inductive LogEntry :=
| Sent (line : string)
| Received (line : string)
| Completed
| Loaded (n : nat)
| SentImmediate (cmd : string)
| SimImmediate (cmd : string)
| Connecting
| SerialDisconnected
| Connected
| Disconnected
| Error.

(** The calls a slot makes on its collaborators, and the exception that
    ends it: the [IndexError] of [gcode_lines[index]], and what
    [tool_marker.remove()] raises in [update_tool]. *)
Inductive Call :=
| log_append (e : LogEntry)
| log_clear
| warning (title : string)
| progress_setRange (lo hi : Z)
| progress_setValue (v : Z)
| critical (title : string)
| IndexError
| update_tool_raised.

(** [class GCodeSenderWindow]: the sender state, the worker, the place of
    the tool marker of the preview, whether [self.timer] is active, how
    many [QTimer.singleShot] calls are pending, and whether the artist that
    [tool_marker] names has been taken off the axes (by an [ax.clear()] that
    was not followed by a new marker).  The buttons are not modelled: every
    slot can be called in every state. *)
Record Window := mkWindow {
  state : SenderState;
  worker : option SerialWorker;
  tool_marker : option (Q * Q * Q);
  timer_active : bool;
  single_shots : nat;
  marker_detached : bool
}.

(** [GCodeSenderWindow.__init__] *)
Definition init : Window :=
  mkWindow (new_state []) None None false 0 false.

(** [update_tool] raises: [self.tool_marker] is there and
    [self.tool_marker.remove()] does not find it on the axes. *)
Definition stale (w : Window) : bool :=
  match tool_marker w with
  | Some _ => marker_detached w
  | None => false
  end.

(** [self.worker and self.worker.is_connected] *)
Definition connected (w : Window) : bool :=
  match worker w with
  | Some k => is_connected k
  | None => false
  end.

Definition with_state (w : Window) (s : SenderState) : Window :=
  mkWindow s (worker w) (tool_marker w) (timer_active w) (single_shots w)
           (marker_detached w).

Definition with_worker (w : Window) (k : option SerialWorker) : Window :=
  mkWindow (state w) k (tool_marker w) (timer_active w) (single_shots w)
           (marker_detached w).

(** ** Slots *)

Definition Slot := Window -> Window * list Call.

Definition connect_serial : Slot := fun w =>
  match worker w with
  | Some k =>
      if isRunning k then (w, [])
      else (with_worker w (Some new_worker), [log_append Connecting])
  | None => (with_worker w (Some new_worker), [log_append Connecting])
  end.

Definition disconnect_serial : Slot := fun w =>
  match worker w with
  | Some k =>
      if isRunning k
      then (with_worker w (Some (worker_stop k)), [log_append SerialDisconnected])
      else (w, [])
  | None => (w, [])
  end.

(** [on_connected(ok)] *)
Definition on_connected (ok : bool) : Slot := fun w =>
  (w, [log_append (if ok then Connected else Disconnected)]).

(** [open_gcode], for a file that was chosen and read: [text] is what
    [f.read()] returned.  The state is replaced, then [plot_gcode(lines)]
    clears the axes.  When it raises, the [except] of [open_gcode] shows the
    error and nothing else is done: the marker there was is left off the
    axes.  When it does not, it puts a new marker at the origin, and the log
    and the progress bar are set. *)
Definition open_gcode (text : string) : Slot := fun w =>
  let lines := load_program text in
  if Preview.plot_raises lines then
    (mkWindow (new_state lines) (worker w) (tool_marker w)
              (timer_active w) (single_shots w)
              (match tool_marker w with
               | Some _ => true
               | None => marker_detached w
               end),
     [critical "Error"])
  else
    (mkWindow (new_state lines) (worker w) (Some (0, 0, 0)%Q)
              (timer_active w) (single_shots w) false,
     [log_clear; log_append (Loaded (length lines));
      progress_setRange 0 (len lines); progress_setValue 0]).

Definition start_sending : Slot := fun w =>
  if negb (connected w) then (w, [warning "Not connected"])
  else match gcode_lines (state w) with
       | [] => (w, [warning "No G-code"])
       | _ =>
           (mkWindow
              (mkSenderState (gcode_lines (state w)) (index (state w)) true false true)
              (worker w) (tool_marker w) true (single_shots w)
              (marker_detached w),
            [])
       end.

Definition pause_sending : Slot := fun w =>
  if negb (running (state w)) then (w, [])
  else
    let s := state w in
    (with_state w
       (mkSenderState (gcode_lines s) (index s) (running s) (negb (paused s))
                      (ok_to_send s)),
     []).

Definition stop_sending : Slot := fun w =>
  let s := state w in
  (mkWindow (mkSenderState (gcode_lines s) (index s) false false true)
            (option_map worker_stop (worker w))
            (tool_marker w) false (single_shots w) (marker_detached w),
   []).

Definition send_immediate (cmd : string) : Slot := fun w =>
  match worker w with
  | Some k =>
      if is_connected k
      then (with_worker w (Some (send_line cmd k)), [log_append (SentImmediate cmd)])
      else (w, [log_append (SimImmediate cmd)])
  | None => (w, [log_append (SimImmediate cmd)])
  end.

(** [line.strip().lower().startswith("ok")], on text of characters below
    256, where only O and K become o and k in lower case.  (Beyond them,
    [str.lower] also turns the Kelvin sign U+212A into k; such a line is not
    a text of this model.) *)
Definition is_ok (line : string) : bool :=
  Str.startswith (Str.lower (Str.strip line)) "ok".

Definition on_line_received (line : string) : Slot := fun w =>
  let s := state w in
  (if is_ok line
   then with_state w
          (mkSenderState (gcode_lines s) (index s) (running s) (paused s) true)
   else w,
   [log_append (Received line)]).

(** [_tick].  The line is queued on a connected worker and logged; then
    [update_tool] is called, and when that raises (the marker is [stale])
    the exception leaves the slot there: the gate, the index, the progress
    bar and the single shot are not touched.  Else the marker is put at the
    place scanned from the line, the gate is closed, the index moved, and
    without connection the single shot is armed. *)
Definition _tick : Slot := fun w =>
  let s := state w in
  if negb (running s) || paused s then (w, [])
  else if negb (ok_to_send s) then (w, [])
  else if len (gcode_lines s) <=? index s then
    let (w', calls) := stop_sending w in (w', log_append Completed :: calls)
  else
    match getitem (gcode_lines s) (index s) with
    | None => (w, [IndexError])
    | Some line =>
        let k :=
          match worker w with
          | Some k => if is_connected k then Some (send_line line k) else Some k
          | None => None
          end in
        if stale w then
          (mkWindow s k (tool_marker w) (timer_active w) (single_shots w)
                    (marker_detached w),
           [log_append (Sent line); update_tool_raised])
        else
          (mkWindow
             (mkSenderState (gcode_lines s) (index s + 1) (running s) (paused s) false)
             k
             (Some (Axis.tool_of_line line))
             (timer_active w)
             (if connected w then single_shots w else S (single_shots w))
             false,
           [log_append (Sent line); progress_setValue (index s + 1)])
    end.

(** ** Events of the main loop and of the worker thread *)

Inductive Event :=
| connect_clicked
| disconnect_clicked
| file_opened (text : string)
| start_clicked
| pause_clicked
| stop_clicked
| immediate_clicked (cmd : string)
| timer_timeout
| single_shot_timeout
| line_received (line : string)
| run_begins
| open_fails
| line_taken
| write_fails
| run_returns.

(** The worker thread, seen from the window.  [run()] begins: [_running] is
    set and [connected(True)] is emitted.  The port cannot be opened: the
    error and [connected(False)], twice, are emitted.  The loop takes a line
    from [_tx].  A write raises: as when the port cannot be opened, and
    [_running] stays as it was.  The loop sees [_running] false and [run()]
    returns: [connected(False)] is emitted. *)
Definition worker_event (e : Event) (k : SerialWorker) : option (SerialWorker * list Call) :=
  match e, thread k with
  | run_begins, Starting =>
      Some (mkWorker true (_tx k) Executing, [log_append Connected])
  | open_fails, Starting =>
      Some (mkWorker (_running k) (_tx k) Finished,
            [log_append Error; log_append Disconnected; log_append Disconnected])
  | line_taken, Executing =>
      match _tx k with
      | _ :: q => Some (mkWorker (_running k) q Executing, [])
      | [] => None
      end
  | write_fails, Executing =>
      match _tx k with
      | _ :: q =>
          Some (mkWorker (_running k) q Finished,
                [log_append Error; log_append Disconnected; log_append Disconnected])
      | [] => None
      end
  | run_returns, Executing =>
      if _running k then None
      else Some (mkWorker false (_tx k) Finished, [log_append Disconnected])
  | _, _ => None
  end.

(** One event.  An event that cannot happen in [w] (a timer that is not
    active, a thread that is not there) leaves [w] as it is. *)
Definition step (e : Event) : Slot := fun w =>
  match e with
  | connect_clicked => connect_serial w
  | disconnect_clicked => disconnect_serial w
  | file_opened text => open_gcode text w
  | start_clicked => start_sending w
  | pause_clicked => pause_sending w
  | stop_clicked => stop_sending w
  | immediate_clicked cmd => send_immediate cmd w
  | timer_timeout => if timer_active w then _tick w else (w, [])
  | single_shot_timeout =>
      match single_shots w with
      | S n =>
          on_line_received "ok"
            (mkWindow (state w) (worker w) (tool_marker w) (timer_active w) n
                      (marker_detached w))
      | O => (w, [])
      end
  | line_received line => on_line_received line w
  | _ =>
      match worker w with
      | Some k =>
          match worker_event e k with
          | Some (k', calls) => (with_worker w (Some k'), calls)
          | None => (w, [])
          end
      | None => (w, [])
      end
  end.

(** A run of events, with all the calls made. *)
Fixpoint run (es : list Event) (w : Window) : Window * list Call :=
  match es with
  | e :: r =>
      let (w1, c1) := step e w in
      let (w2, c2) := run r w1 in
      (w2, (c1 ++ c2)%list)
  | [] => (w, [])
  end.

(** [n] calls of [_tick] in a row. *)
Fixpoint ticks (n : nat) (w : Window) : Window * list Call :=
  match n with
  | S m =>
      let (w1, c1) := _tick w in
      let (w2, c2) := ticks m w1 in
      (w2, (c1 ++ c2)%list)
  | O => (w, [])
  end.

Inductive reachable : Window -> Prop :=
| reachable_init : reachable init
| reachable_step e w : reachable w -> reachable (fst (step e w)).

(** The program lines a list of calls logs as sent. *)
Fixpoint sent (calls : list Call) : list string :=
  match calls with
  | log_append (Sent line) :: r => line :: sent r
  | _ :: r => sent r
  | [] => []
  end.

(** ** The buttons *)

(** What [_update_buttons] sets on the start, pause and stop buttons. *)
Record Buttons := mkButtons {
  start_enabled : bool;
  pause_enabled : bool;
  pause_text : string;
  stop_enabled : bool
}.

(** [_update_buttons]:
    [start_btn.setEnabled(not running and bool(self.state.gcode_lines))],
    [pause_btn.setEnabled(running)],
    [pause_btn.setText("Resume" if paused else "Pause")],
    [stop_btn.setEnabled(running)]. *)
Definition _update_buttons (s : SenderState) : Buttons :=
  mkButtons
    (negb (running s)
     && match gcode_lines s with [] => false | _ :: _ => true end)
    (running s)
    (if paused s then "Resume" else "Pause")
    (running s).

(** ** The command line of sender.py and the launcher of main.py *)

Module Cli.

(** [str.lower] on the characters below 256: the ASCII capitals and the
    capitals of Latin-1 (all of 192..222 but the multiplication sign). *)
Definition lower_char (c : ascii) : ascii :=
  let n := N_of_ascii c in
  if ((65 <=? n) && (n <=? 90)
      || (192 <=? n) && (n <=? 222) && negb (n =? 215))%N
  then ascii_of_N (n + 32) else c.

Fixpoint lower (s : string) : string :=
  match s with
  | String c t => String (lower_char c) (lower t)
  | EmptyString => EmptyString
  end.

(** [l.index(x)], after [x in l]: the first place of [x]; [None] when [x]
    is not in [l]. *)
Fixpoint list_index (x : string) (l : list string) : option nat :=
  match l with
  | y :: r =>
      if (y =? x)%string then Some O else option_map S (list_index x r)
  | [] => None
  end.

(** One option of the command line:
    [if flag in sys.argv: i = sys.argv.index(flag)]
    [if i + 1 < len(sys.argv): value = sys.argv[i + 1].lower()] *)
Definition option_value (flag default : string) (argv : list string) : string :=
  match list_index flag argv with
  | Some i =>
      match nth_error argv (S i) with
      | Some v => lower v
      | None => default
      end
  | None => default
  end.

(** The theme and the color [sender.py] starts with. *)
Definition parse (argv : list string) : string * string :=
  (option_value "--theme" "dark" argv, option_value "--color" "grey" argv).

(** [sys.argv] of the tool that [launch_tool] of main.py starts with
    [subprocess.Popen([sys.executable, path, "--theme", theme, "--color", color])]. *)
Definition launch_argv (path theme color : string) : list string :=
  [path; "--theme"; theme; "--color"; color].

End Cli.

(** ** Predicates of the statements *)

(** [l[i : i + n]] *)
Definition slice {A} (l : list A) (i n : nat) : list A := firstn n (skipn i l).

(** [n] times a tick and the acknowledgment of the line it sent. *)
Fixpoint acknowledged_ticks (n : nat) : list Event :=
  match n with
  | S m => timer_timeout :: line_received "ok" :: acknowledged_ticks m
  | O => []
  end.

(** No line boundary of [splitlines] occurs in [s]. *)
Fixpoint one_line (s : string) : bool :=
  match s with
  | String c t => negb (Str.is_linebreak c) && one_line t
  | EmptyString => true
  end.

(** The character [a] does not occur in [s]. *)
Fixpoint absent (a : ascii) (s : string) : bool :=
  match s with
  | String c t => negb (c =? a)%char && absent a t
  | EmptyString => true
  end.

(** Only digits in [s]. *)
Fixpoint all_digits (s : string) : bool :=
  match s with
  | String c t => Str.isdigit c && all_digits t
  | EmptyString => true
  end.

(** [s] is a numeral that [float] reads: an optional sign, digits, and
    maybe a point and more digits. *)
Definition numeral (s : string) : Prop :=
  exists sign ds point fs,
    s = sign ++ ds ++ point ++ fs
    /\ (sign = "" \/ sign = "-")
    /\ ds <> "" /\ all_digits ds = true
    /\ (point = "" /\ fs = "" \/ point = "." /\ all_digits fs = true).

(** What holds of the window in every state it can reach: a running loop
    has its timer, a program and a worker; a worker whose thread has not
    entered [run()] is not connected and has nothing queued. *)
Definition lifecycle_ok (w : Window) : Prop :=
  (running (state w) = true ->
   timer_active w = true /\ gcode_lines (state w) <> [] /\ worker w <> None)
  /\ match worker w with
     | Some k => thread k = Starting -> _running k = false /\ _tx k = []
     | None => True
     end.

(** The loop streams: it runs, is not paused, the gate is open, the timer is
    active and the worker [k] is connected. *)
Definition streams (w : Window) (k : SerialWorker) : Prop :=
  worker w = Some k /\ _running k = true
  /\ running (state w) = true /\ paused (state w) = false
  /\ ok_to_send (state w) = true /\ timer_active w = true.

(** The loop is held: paused, or not running. *)
Definition held (w : Window) : Prop :=
  paused (state w) = true \/ running (state w) = false.

(** [n] times a tick and the single shot it armed. *)
Fixpoint simulated_ticks (n : nat) : list Event :=
  match n with
  | S m => timer_timeout :: single_shot_timeout :: simulated_ticks m
  | O => []
  end.

(** The loop streams without connection: it runs, is not paused, the gate
    is open, the timer is active and no worker is connected. *)
Definition streams_alone (w : Window) : Prop :=
  connected w = false
  /\ running (state w) = true /\ paused (state w) = false
  /\ ok_to_send (state w) = true /\ timer_active w = true.

(** The events after which the window may be without connection: stop,
    disconnect, a new worker, and the tick that completes the program. *)
Definition may_disconnect (e : Event) : bool :=
  match e with
  | stop_clicked | disconnect_clicked | connect_clicked | timer_timeout => true
  | _ => false
  end.


(** How a line that [is_gcode_line] accepts begins, once the white space
    before it is gone: a command word, or a number sign. *)
Definition sendable_head (ln : string) : bool :=
  match ln with
  | String c r =>
      is_GMT c && match r with String d _ => Str.isdigit d | EmptyString => false end
      || (c =? "#")%char
  | EmptyString => false
  end.

(** Neither [;] nor [(] occurs in [s]. *)
Fixpoint plain (s : string) : bool :=
  match s with
  | String c t => negb ((c =? ";")%char || (c =? "(")%char) && plain t
  | EmptyString => true
  end.

(** [ln] begins with a letter of G, M, T and a digit. *)
Definition command_word (ln : string) : Prop :=
  exists c d r, ln = String c (String d r) /\ is_GMT c = true /\ Str.isdigit d = true.

(** [ln] begins with a number sign. *)
Definition number_sign (ln : string) : Prop :=
  exists r, ln = String "#" r.

(** [isSendable] in the words of the specification: after trimming, the line
    is not empty, does not start with [;] or [(], and begins with a letter of
    G, M, T followed by digits. *)
Definition spec_isSendable (line : string) : bool :=
  let ln := Str.strip line in
  negb (ln =? "")%string
  && negb (Str.startswith ln ";" || Str.startswith ln "(")
  && match ln with
     | String c (String d _) => is_GMT c && Str.isdigit d
     | _ => false
     end.



(** The invariant of [SenderState]. *)
Definition state_ok (s : SenderState) : Prop :=
  0 <= index s <= len (gcode_lines s)
  /\ (paused s = true -> running s = true).

(** [_tick] goes past its three returns: the loop runs, is not paused, the
    gate is open and a line is left. *)
Definition eligible (s : SenderState) : Prop :=
  running s = true /\ paused s = false /\ ok_to_send s = true
  /\ 0 <= index s < len (gcode_lines s).

(** [self.state.index = 0], the reset of the index that a caller makes
    before a restart; no slot of the window does it, but [open_gcode] by
    replacing the whole state. *)
Definition rewind (w : Window) : Window :=
  let s := state w in
  with_state w
    (mkSenderState (gcode_lines s) 0 (running s) (paused s) (ok_to_send s)).


(** What is waiting in the queue of the worker. *)
Definition queue (w : Window) : list string :=
  match worker w with
  | Some k => _tx k
  | None => []
  end.

(** [n] zeros. *)
Fixpoint zeros (n : nat) : string :=
  match n with
  | S m => String "0" (zeros m)
  | O => EmptyString
  end.

(** A rapid move to an X of 2 followed by 308 zeros, more than a double
    holds: [plot_gcode] raises on a file with this line. *)
Definition far_move : string := "G0 X2" ++ zeros 308.





(** The programs and runs of the examples. *)
Definition two_moves : string := "G0 X10" ++ String "010" "G1 Y5 F100".

Definition streaming : list Event :=
  [connect_clicked; run_begins; file_opened two_moves; start_clicked; timer_timeout].

(** ** The line classifier *)

Section Classifier.

Import Str.

Ltac bits c := destruct c as [[] [] [] [] [] [] [] []].

Lemma space_not_head c :
  isspace c = true ->
  is_GMT c = false /\ isdigit c = false /\ (c =? "#")%char = false
  /\ (c =? ";")%char = false /\ (c =? "(")%char = false.
Proof. bits c; vm_compute; intuition congruence. Qed.

Lemma GMT_not_mark c :
  is_GMT c = true ->
  isspace c = false /\ (c =? "#")%char = false
  /\ (c =? ";")%char = false /\ (c =? "(")%char = false.
Proof. bits c; vm_compute; intuition congruence. Qed.

Lemma digit_not_mark c :
  isdigit c = true ->
  isspace c = false /\ (c =? ";")%char = false /\ (c =? "(")%char = false.
Proof. bits c; vm_compute; intuition congruence. Qed.

Lemma lstrip_head s :
  lstrip s = "" \/ exists c t, lstrip s = String c t /\ isspace c = false.
Proof.
  induction s as [|c t IH]; simpl; [now left|].
  destruct (isspace c) eqn:E; [exact IH|].
  right. now exists c, t.
Qed.

Lemma lstrip_nonspace c t : isspace c = false -> lstrip (String c t) = String c t.
Proof. simpl. now intros ->. Qed.

Lemma rstrip_nonspace c t :
  isspace c = false -> rstrip (String c t) = String c (rstrip t).
Proof. simpl. intros ->. now destruct (rstrip t). Qed.

(** [rstrip] keeps the first character of what it leaves. *)
Lemma rstrip_cons t d r : rstrip t = String d r -> exists t', t = String d t'.
Proof.
  destruct t as [|c t]; simpl; [discriminate|].
  destruct (rstrip t); [destruct (isspace c)|]; intros [= <- _] || discriminate;
    now eexists.
Qed.

Lemma rstrip_empty t :
  rstrip t = "" -> match t with String d _ => isspace d = true | EmptyString => True end.
Proof.
  destruct t as [|c t]; simpl; [trivial|].
  destruct (rstrip t); [destruct (isspace c)|]; congruence.
Qed.

(** The digit test on the first character sees through [rstrip]. *)
Lemma rstrip_digit t :
  match rstrip t with String d _ => isdigit d | EmptyString => false end
  = match t with String d _ => isdigit d | EmptyString => false end.
Proof.
  destruct (rstrip t) as [|d r] eqn:E.
  - apply rstrip_empty in E. destruct t as [|d t]; [reflexivity|].
    symmetry. now apply space_not_head.
  - apply rstrip_cons in E as [t' ->]. reflexivity.
Qed.

Lemma startswith_nil s : startswith s "" = true.
Proof. now destruct s. Qed.

Lemma is_gcode_line_head line : is_gcode_line line = sendable_head (lstrip line).
Proof.
  unfold is_gcode_line, strip, GCODE_LINE_RE_match.
  destruct (lstrip_head line) as [-> | (c & t & -> & Hc)]; [reflexivity|].
  rewrite (rstrip_nonspace _ _ Hc), (lstrip_nonspace _ _ Hc).
  cbn [sendable_head startswith String.eqb negb andb].
  rewrite rstrip_digit, !startswith_nil, !andb_true_r.
  rewrite (Ascii.eqb_sym ";"%char), (Ascii.eqb_sym "("%char).
  destruct (is_GMT c) eqn:G.
  - apply GMT_not_mark in G as (_ & -> & -> & ->).
    cbn. now rewrite !orb_false_r.
  - cbn [andb orb].
    destruct (c =? ";")%char eqn:E1; [apply Ascii.eqb_eq in E1; now subst|].
    destruct (c =? "(")%char eqn:E2; [apply Ascii.eqb_eq in E2; now subst|].
    cbn. now rewrite orb_false_r.
Qed.

Lemma sendable_head_rstrip y : sendable_head (rstrip y) = sendable_head y.
Proof.
  destruct y as [|c t]; [reflexivity|].
  destruct (isspace c) eqn:Hc.
  - destruct (space_not_head c Hc) as (G & _ & H & _).
    transitivity false; [|cbn; now rewrite G, H].
    destruct (rstrip (String c t)) as [|c' r] eqn:E; [reflexivity|].
    apply rstrip_cons in E as [t' [= <- _]]. cbn. now rewrite G, H.
  - rewrite (rstrip_nonspace _ _ Hc). cbn [sendable_head].
    now rewrite rstrip_digit.
Qed.

Lemma lstrip_idem s : lstrip (lstrip s) = lstrip s.
Proof.
  destruct (lstrip_head s) as [-> | (c & t & -> & Hc)]; [reflexivity|].
  now apply lstrip_nonspace.
Qed.

Lemma lstrip_strip s : lstrip (strip s) = strip s.
Proof.
  unfold strip.
  destruct (lstrip_head s) as [-> | (c & t & -> & Hc)]; [reflexivity|].
  rewrite (rstrip_nonspace _ _ Hc). now apply lstrip_nonspace.
Qed.

Lemma is_gcode_line_strip s : is_gcode_line (strip s) = is_gcode_line s.
Proof.
  rewrite !is_gcode_line_head, lstrip_strip. unfold strip.
  apply sendable_head_rstrip.
Qed.

(** Where [COMMENT_RE] matches, the text does not begin as a sendable
    line does. *)
Lemma match_here_head s :
  CommentRe.match_here s = true -> sendable_head (lstrip s) = false.
Proof.
  unfold CommentRe.match_here.
  destruct (lstrip s) as [|c t]; [reflexivity|].
  cbn [sendable_head].
  destruct (c =? ";")%char eqn:E1; [apply Ascii.eqb_eq in E1; now subst|].
  destruct (c =? "(")%char eqn:E2; [apply Ascii.eqb_eq in E2; now subst|].
  discriminate.
Qed.

Lemma match_here_first s :
  CommentRe.match_here s = true ->
  match s with String d _ => isdigit d | EmptyString => false end = false.
Proof.
  destruct s as [|d t]; [reflexivity|].
  unfold CommentRe.match_here. intros H.
  destruct (isdigit d) eqn:D; [|reflexivity].
  destruct (digit_not_mark d D) as (Hs & H1 & H2).
  rewrite (lstrip_nonspace _ _ Hs), H1, H2 in H. discriminate.
Qed.

Lemma sub_digit t :
  match CommentRe.sub t with String d _ => isdigit d | EmptyString => false end
  = match t with String d _ => isdigit d | EmptyString => false end.
Proof.
  destruct t as [|d t]; cbn [CommentRe.sub].
  - now destruct (CommentRe.match_here "").
  - destruct (CommentRe.match_here (String d t)) eqn:E; [|reflexivity].
    symmetry. now apply (match_here_first (String d t)).
Qed.

Lemma sub_head s :
  sendable_head (lstrip (CommentRe.sub s)) = sendable_head (lstrip s).
Proof.
  induction s as [|c t IH].
  - cbn. now destruct (CommentRe.match_here "").
  - cbn [CommentRe.sub].
    destruct (CommentRe.match_here (String c t)) eqn:E.
    + symmetry. now apply match_here_head.
    + cbn [lstrip]. destruct (isspace c); [exact IH|].
      cbn [sendable_head]. now rewrite sub_digit.
Qed.

(** Stripping the comment of a line does not change whether it is
    sendable. *)
Lemma is_gcode_line_strip_comment s :
  is_gcode_line (strip_comment s) = is_gcode_line s.
Proof.
  unfold strip_comment.
  now rewrite is_gcode_line_strip, !is_gcode_line_head, sub_head.
Qed.

Lemma is_gcode_line_stripped line : is_gcode_line line = sendable_head (strip line).
Proof.
  rewrite is_gcode_line_head. unfold strip. symmetry. apply sendable_head_rstrip.
Qed.

Lemma all_space_lstrip s : all_space s = true -> lstrip s = "".
Proof.
  induction s as [|c t IH]; cbn; [reflexivity|].
  destruct (isspace c); [exact IH | discriminate].
Qed.

Lemma sendable_head_iff ln :
  sendable_head ln = true <->
  ln <> "" /\ startswith ln ";" = false /\ startswith ln "(" = false
  /\ (command_word ln \/ number_sign ln).
Proof.
  split.
  - destruct ln as [|c r]; [discriminate|].
    cbn [sendable_head startswith]. rewrite !startswith_nil, !andb_true_r.
    rewrite (Ascii.eqb_sym ";"%char), (Ascii.eqb_sym "("%char).
    intros H. apply orb_true_iff in H as [H | H].
    + apply andb_true_iff in H as [G D].
      destruct (GMT_not_mark c G) as (_ & _ & -> & ->).
      repeat split; [discriminate|]. left.
      destruct r as [|d r]; [discriminate|]. now exists c, d, r.
    + apply Ascii.eqb_eq in H as ->.
      repeat split; [discriminate|]. right. now exists r.
  - intros (_ & _ & _ & [(c & d & r & -> & G & D) | (r & ->)]).
    + cbn. now rewrite G, D.
    + reflexivity.
Qed.

Lemma rstrip_lstrip x : rstrip (lstrip x) = lstrip (rstrip x).
Proof.
  induction x as [|c t IH]; [reflexivity|].
  destruct (isspace c) eqn:Hc.
  - cbn [lstrip rstrip]. rewrite Hc, IH.
    destruct (rstrip t) eqn:E; [reflexivity|].
    cbn [lstrip]. now rewrite Hc.
  - rewrite (lstrip_nonspace _ _ Hc), (rstrip_nonspace _ _ Hc).
    now rewrite (lstrip_nonspace _ _ Hc).
Qed.

Lemma all_space_rstrip s : all_space s = true -> rstrip s = "".
Proof.
  induction s as [|c t IH]; cbn; [reflexivity|].
  intros H. apply andb_true_iff in H as [Hc Ht].
  now rewrite (IH Ht), Hc.
Qed.

Lemma match_here_space c t :
  isspace c = true -> CommentRe.match_here (String c t) = CommentRe.match_here t.
Proof. unfold CommentRe.match_here. cbn [lstrip]. now intros ->. Qed.

(** In front of the comment only white space can be part of the match. *)
Lemma match_here_plain b cmt :
  plain b = true ->
  CommentRe.match_here (b ++ cmt) = true -> all_space b = true.
Proof.
  induction b as [|c b IH]; [reflexivity|].
  cbn [plain append all_space]. intros P M.
  apply andb_true_iff in P as [Pc Pb].
  destruct (isspace c) eqn:Hc.
  - rewrite (match_here_space _ _ Hc) in M. now apply IH.
  - unfold CommentRe.match_here in M.
    rewrite (lstrip_nonspace _ _ Hc) in M.
    apply negb_true_iff, orb_false_iff in Pc as [P1 P2].
    rewrite P1, P2 in M. discriminate.
Qed.

Lemma sub_plain body cmt :
  plain body = true ->
  CommentRe.match_here cmt = true ->
  rstrip (CommentRe.sub (body ++ cmt)) = rstrip body.
Proof.
  intros P M. induction body as [|c b IH].
  - cbn [append]. destruct cmt; cbn [CommentRe.sub]; now rewrite M.
  - cbn [append CommentRe.sub].
    destruct (CommentRe.match_here (String c (b ++ cmt))) eqn:E.
    + symmetry. apply all_space_rstrip.
      now apply (match_here_plain (String c b) cmt).
    + cbn [plain] in P. apply andb_true_iff in P as [_ Pb].
      cbn [rstrip]. now rewrite (IH Pb).
Qed.

(** Where no [;] and no [(] comes before the comment, [strip_comment] takes
    the comment, and the white space around what is left, and nothing
    else. *)
Lemma strip_comment_plain_body body cmt :
  plain body = true ->
  CommentRe.match_here cmt = true ->
  strip_comment (body ++ cmt) = strip body.
Proof.
  intros P M. unfold strip_comment, strip.
  now rewrite !rstrip_lstrip, (sub_plain _ _ P M).
Qed.

End Classifier.

(** The scenario of the specification: the raw line is sendable and loads
    without its comment. *)
Example load_one_move :
  is_gcode_line "G1 X1 Y2 ; move" = true
  /\ strip_comment "G1 X1 Y2 ; move" = "G1 X1 Y2"
  /\ load_program "G1 X1 Y2 ; move" = ["G1 X1 Y2"].
Proof. repeat split. Qed.

Example load_mixed_source :
  load_program
    ("(header)" ++ String "010" "" ++ String "013" (String "010" "")
     ++ "  G0 X10 (rapid)" ++ String "010" "" ++ "; note" ++ String "010" ""
     ++ "stray prose" ++ String "010" "" ++ "m3" ++ String "010" ""
     ++ "G1 Y5 F100 ; feed" ++ String "010" "")
  = ["G0 X10"; "G1 Y5 F100"].
Proof. reflexivity. Qed.

(** C2, as the specification has it, fails on a line that starts with a
    number sign: [GCODE_LINE_RE] lists [#] among its alternatives and
    [is_gcode_line] takes out only [;] and [(]. *)
Lemma number_sign_line_is_sendable :
  is_gcode_line "# note" = true /\ spec_isSendable "# note" = false.
Proof. split; reflexivity. Qed.

(** C2 (amended): [is_gcode_line] is true exactly when the trimmed line is
    not empty, does not start with [;] or [(], and begins with a letter of
    G, M, T followed by a digit, or with [#].  It is false for a line of
    white space only and for a line whose trimmed text starts with [;] or
    [(]. *)
Theorem is_gcode_line_iff :
  forall line,
    (is_gcode_line line = true <->
     Str.strip line <> ""
     /\ Str.startswith (Str.strip line) ";" = false
     /\ Str.startswith (Str.strip line) "(" = false
     /\ (command_word (Str.strip line) \/ number_sign (Str.strip line)))
    /\ (Str.all_space line = true -> is_gcode_line line = false)
    /\ (Str.startswith (Str.strip line) ";" = true
        \/ Str.startswith (Str.strip line) "(" = true ->
        is_gcode_line line = false).
Proof.
  intros line. rewrite is_gcode_line_stripped.
  split; [apply sendable_head_iff | split].
  - intros H. unfold Str.strip. now rewrite (all_space_lstrip _ H).
  - intros H. destruct (sendable_head (Str.strip line)) eqn:E; [|reflexivity].
    apply sendable_head_iff in E as (_ & E1 & E2 & _). destruct H; congruence.
Qed.

Lemma is_gcode_line_iff_witness :
  is_gcode_line "  G1 X1 Y2 ; move" = true
  /\ is_gcode_line "   " = false
  /\ is_gcode_line " (setup)" = false.
Proof.
  split; [|split].
  - apply (proj2 (proj1 (is_gcode_line_iff "  G1 X1 Y2 ; move"))).
    split; [discriminate | split; [reflexivity | split; [reflexivity|]]].
    left. exists "G"%char, "1"%char, " X1 Y2 ; move". repeat split.
  - apply (proj1 (proj2 (is_gcode_line_iff "   "))). reflexivity.
  - apply (proj2 (proj2 (is_gcode_line_iff " (setup)"))). right. reflexivity.
Defined.

(** C3 fails on a sendable line with an earlier group in parentheses: the
    match of [COMMENT_RE] starts at the first [(] of the line and runs to
    the [)] that ends it, so the words between the two groups go as well. *)
Lemma strip_comment_takes_earlier_group :
  is_gcode_line "G1 (a) X1 (b)" = true
  /\ strip_comment "G1 (a) X1 (b)" = "G1"
  /\ strip_comment "G1 (a) X1 (b)" <> "G1 (a) X1".
Proof. repeat split; discriminate. Qed.

(** ** The streaming state machine *)

Ltac slots :=
  unfold step, connect_serial, disconnect_serial, on_connected, open_gcode,
    start_sending, pause_sending, send_immediate, on_line_received, _tick,
    stop_sending, with_state, with_worker, worker_event, connected,
    is_connected, new_state in *.

Ltac cases :=
  cbn;
  repeat (match goal with
          | |- context [negb ?x] => destruct x eqn:?
          | |- context [match ?x with _ => _ end] =>
              lazymatch x with
              | context [match _ with _ => _ end] => fail
              | _ => destruct x eqn:?
              end
          end; cbn);
  cbn in *;
  repeat match goal with
         | H : ?x = _ |- context [?x] => rewrite H
         end.

Ltac finish := unfold len in *; cbn in *; intuition (lia || congruence).

Lemma sent_app c1 c2 : sent (c1 ++ c2) = (sent c1 ++ sent c2)%list.
Proof.
  induction c1 as [|c c1 IH]; [reflexivity|].
  destruct c as [[] | | | | | | |]; cbn; now rewrite ?IH.
Qed.

(** [_tick], case by case: nothing to do, completion, an index below
    [-len], a line sent, or a line sent and [update_tool] raising. *)
Lemma tick_cases w :
  let s := state w in
  ((running s = false \/ paused s = true \/ ok_to_send s = false)
   /\ _tick w = (w, []))
  \/ (running s = true /\ paused s = false /\ ok_to_send s = true
      /\ len (gcode_lines s) <= index s
      /\ _tick w = (fst (stop_sending w), [log_append Completed]))
  \/ (index s < 0 /\ _tick w = (w, [IndexError]))
  \/ exists line,
      getitem (gcode_lines s) (index s) = Some line
      /\ running s = true /\ paused s = false /\ ok_to_send s = true
      /\ index s < len (gcode_lines s)
      /\ (stale w = false
          /\ _tick w =
               (mkWindow
                  (mkSenderState (gcode_lines s) (index s + 1) true false false)
                  (if connected w then option_map (send_line line) (worker w)
                   else worker w)
                  (Some (Axis.tool_of_line line))
                  (timer_active w)
                  (if connected w then single_shots w else S (single_shots w))
                  false,
                [log_append (Sent line); progress_setValue (index s + 1)])
          \/ stale w = true
             /\ _tick w =
                  (mkWindow s
                     (if connected w then option_map (send_line line) (worker w)
                      else worker w)
                     (tool_marker w) (timer_active w) (single_shots w)
                     (marker_detached w),
                   [log_append (Sent line); update_tool_raised])).
Proof.
  intros s. subst s. unfold _tick.
  destruct (running (state w)) eqn:R; [|left; auto].
  destruct (paused (state w)) eqn:P; [left; auto|].
  destruct (ok_to_send (state w)) eqn:K; [|left; auto].
  cbn [negb orb].
  destruct (Z.leb_spec (len (gcode_lines (state w))) (index (state w))) as [L | L].
  - right; left. cbn. auto.
  - destruct (getitem (gcode_lines (state w)) (index (state w))) as [line|] eqn:G.
    + right; right; right. exists line.
      assert (W : match worker w with
                  | Some k => if is_connected k then Some (send_line line k) else Some k
                  | None => None
                  end
                  = if connected w then option_map (send_line line) (worker w)
                    else worker w).
      { unfold connected. destruct (worker w) as [k|]; [|reflexivity].
        cbn. now destruct (is_connected k). }
      rewrite W. repeat split; auto.
      destruct (stale w); [right | left]; now split.
    + right; right; left. split; [|reflexivity].
      unfold getitem in G.
      destruct (Z.leb_spec 0 (index (state w))); [|assumption].
      apply nth_error_None in G. unfold len in L. lia.
Qed.

Ltac tick_split w E :=
  destruct (tick_cases w)
    as [[_ E] | [(_ & _ & _ & _ & E) | [[_ E]
        | (? & _ & _ & _ & _ & _ & [[_ E] | [_ E]])]]];
  rewrite E.

(** [_tick] with a marker that [update_tool] can move: the four cases of
    the slot. *)
Lemma tick_usable w :
  stale w = false ->
  let s := state w in
  ((running s = false \/ paused s = true \/ ok_to_send s = false)
   /\ _tick w = (w, []))
  \/ (running s = true /\ paused s = false /\ ok_to_send s = true
      /\ len (gcode_lines s) <= index s
      /\ _tick w = (fst (stop_sending w), [log_append Completed]))
  \/ (index s < 0 /\ _tick w = (w, [IndexError]))
  \/ exists line,
      getitem (gcode_lines s) (index s) = Some line
      /\ running s = true /\ paused s = false /\ ok_to_send s = true
      /\ index s < len (gcode_lines s)
      /\ _tick w =
           (mkWindow
              (mkSenderState (gcode_lines s) (index s + 1) true false false)
              (if connected w then option_map (send_line line) (worker w)
               else worker w)
              (Some (Axis.tool_of_line line))
              (timer_active w)
              (if connected w then single_shots w else S (single_shots w))
              false,
            [log_append (Sent line); progress_setValue (index s + 1)]).
Proof.
  intros U s. subst s.
  destruct (tick_cases w)
    as [A | [B | [C | (line & G & R & P & K & L & [[_ E] | [S _]])]]];
    [now left | now right; left | now right; right; left | | congruence].
  right; right; right. exists line. repeat split; assumption.
Qed.

Ltac tick_split_usable w U E :=
  destruct (tick_usable w U)
    as [[_ E] | [(_ & _ & _ & _ & E) | [[_ E] | (? & _ & _ & _ & _ & _ & E)]]];
  rewrite E.

Lemma tick_index w :
  stale w = false ->
  index (state (fst (_tick w))) = index (state w) + len (sent (snd (_tick w))).
Proof. intros U. tick_split_usable w U E; cbn; lia. Qed.

(** The index is moved by [_tick] only, by one, with one line sent; a load
    sets it to 0. *)
Lemma step_index e w :
  (exists text, e = file_opened text /\ index (state (fst (step e w))) = 0)
  \/ index (state (fst (step e w))) = index (state w)
  \/ index (state (fst (step e w))) = index (state w) + 1
     /\ exists line, sent (snd (step e w)) = [line].
Proof.
  destruct e; try (right; left; slots; cases; finish).
  - left. exists text. split; [reflexivity|].
    cbn [step]. unfold open_gcode. now destruct (Preview.plot_raises _).
  - right. cbn [step]. destruct (timer_active w); [|now left].
    tick_split w E; cbn; try (now left).
    right. split; [reflexivity | now eexists].
Qed.

Lemma tick_ok w : state_ok (state w) -> state_ok (state (fst (_tick w))).
Proof.
  unfold state_ok.
  destruct (tick_cases w)
    as [[_ E] | [(_ & _ & _ & _ & E) | [[_ E]
        | (? & _ & _ & _ & _ & L & [[_ E] | [_ E]])]]];
    rewrite E; cbn; intuition (lia || congruence).
Qed.

Lemma step_ok e w : state_ok (state w) -> state_ok (state (fst (step e w))).
Proof.
  destruct e; unfold state_ok; slots; cases; finish.
Qed.

Lemma reachable_ok w : reachable w -> state_ok (state w).
Proof.
  induction 1 as [|e w _ IH]; [|now apply step_ok].
  unfold state_ok. cbn. split; [lia | discriminate].
Qed.

(** X21: the invariant of [SenderState] ([0 <= index <= len(gcode_lines)]
    and paused only while running) holds when the window is created, is kept
    by every event and by each of load, start, pause, stop, tick and
    acknowledgment, and so holds in every reachable state; an event leaves
    the index as it is, or is a load that sets it to 0, or adds one to it and
    sends exactly one line; and a [_tick] whose marker is not [stale] moves
    the index by the number of lines it sends, which is at most one. *)
Theorem sender_state_invariant :
  state_ok (state init)
  /\ (forall e w, state_ok (state w) -> state_ok (state (fst (step e w))))
  /\ (forall w, reachable w -> state_ok (state w))
  /\ (forall w text line,
        state_ok (state w) ->
        state_ok (state (fst (open_gcode text w)))
        /\ state_ok (state (fst (start_sending w)))
        /\ state_ok (state (fst (pause_sending w)))
        /\ state_ok (state (fst (stop_sending w)))
        /\ state_ok (state (fst (_tick w)))
        /\ state_ok (state (fst (on_line_received line w))))
  /\ (forall e w,
        (exists text, e = file_opened text /\ index (state (fst (step e w))) = 0)
        \/ index (state (fst (step e w))) = index (state w)
        \/ index (state (fst (step e w))) = index (state w) + 1
           /\ exists line, sent (snd (step e w)) = [line])
  /\ (forall w,
        stale w = false ->
        index (state (fst (_tick w)))
        = index (state w) + len (sent (snd (_tick w)))
        /\ (length (sent (snd (_tick w))) <= 1)%nat).
Proof.
  split; [apply reachable_ok; constructor|].
  split; [exact step_ok|].
  split; [exact reachable_ok|].
  split; [|split; [exact step_index|]].
  - intros w text line H.
    split; [exact (step_ok (file_opened text) w H)|].
    split; [exact (step_ok start_clicked w H)|].
    split; [exact (step_ok pause_clicked w H)|].
    split; [exact (step_ok stop_clicked w H)|].
    split; [exact (tick_ok w H)|].
    exact (step_ok (line_received line) w H).
  - intros w U. split; [now apply tick_index|].
    tick_split_usable w U E; cbn; lia.
Qed.

Lemma sender_state_invariant_witness :
  state_ok (state (fst (run streaming init)))
  /\ state_ok (state (fst (step stop_clicked (fst (run streaming init))))).
Proof.
  assert (H : state_ok (state (fst (run streaming init)))).
  { apply (proj1 (proj2 (proj2 sender_state_invariant))).
    unfold streaming.
    repeat match goal with
           | |- reachable (fst (run (?e :: ?r) ?w)) =>
               change (fst (run (e :: r) w)) with (fst (run r (fst (step e w))))
           end.
    repeat (apply reachable_step || apply reachable_init). }
  split; [exact H|].
  apply (proj1 (proj2 sender_state_invariant)). exact H.
Defined.








(** Once the index is at the end, [_tick] sends nothing and moves nothing. *)
Lemma ticks_done n :
  forall w,
    len (gcode_lines (state w)) <= index (state w) ->
    sent (snd (ticks n w)) = []
    /\ index (state (fst (ticks n w))) = index (state w)
    /\ gcode_lines (state (fst (ticks n w))) = gcode_lines (state w)
    /\ queue (fst (ticks n w)) = queue w.
Proof.
  induction n as [|n IH]; intros w H; cbn [ticks]; [now cbn|].
  assert (T : sent (snd (_tick w)) = []
              /\ index (state (fst (_tick w))) = index (state w)
              /\ gcode_lines (state (fst (_tick w))) = gcode_lines (state w)
              /\ queue (fst (_tick w)) = queue w).
  { destruct (tick_cases w)
      as [[_ E] | [(_ & _ & _ & _ & E) | [[_ E] | (? & _ & _ & _ & _ & L & _)]]];
      [rewrite E .. | lia]; cbn; repeat split.
    unfold queue. cbn. now destruct (worker w). }
  destruct (_tick w) as [w1 c1]. cbn [fst snd] in T.
  destruct T as (T1 & T2 & T3 & T4).
  destruct (IH w1) as (I1 & I2 & I3 & I4); [rewrite T2, T3; exact H|].
  destruct (ticks n w1) as [w2 c2]. cbn [fst snd] in *.
  rewrite sent_app, T1, I1. repeat split; congruence.
Qed.

Lemma ticks_idle n :
  forall w, running (state w) = false -> ticks n w = (w, []).
Proof.
  induction n as [|n IH]; intros w H; cbn [ticks]; [reflexivity|].
  unfold _tick at 1. rewrite H. cbn. now rewrite (IH w H).
Qed.

(** C7: when the index has reached the length of the program, the [_tick]
    that finds the loop running, not paused and the gate open (as it is once
    the last line is acknowledged) stops the loop, and it stays stopped under
    any number of further calls; and no number of calls of [_tick] sends
    another line, moves the index or puts anything in the queue of the
    worker. *)
Theorem completion_is_final :
  forall w,
    len (gcode_lines (state w)) <= index (state w) ->
    (running (state w) = true -> paused (state w) = false ->
     ok_to_send (state w) = true ->
     forall n, running (state (fst (ticks (S n) w))) = false)
    /\ (running (state w) = true -> paused (state w) = false ->
        forall line n,
          is_ok line = true ->
          running (state (fst (ticks (S n) (fst (on_line_received line w))))) = false)
    /\ (forall n,
          sent (snd (ticks n w)) = []
          /\ index (state (fst (ticks n w))) = index (state w)
          /\ gcode_lines (state (fst (ticks n w))) = gcode_lines (state w)
          /\ queue (fst (ticks n w)) = queue w).
Proof.
  intros w H.
  assert (A : forall v,
             len (gcode_lines (state v)) <= index (state v) ->
             running (state v) = true -> paused (state v) = false ->
             ok_to_send (state v) = true ->
             forall n, running (state (fst (ticks (S n) v))) = false).
  { intros v L R P K n. cbn [ticks].
    assert (E : _tick v = (fst (stop_sending v), [log_append Completed])).
    { unfold _tick. rewrite R, P, K. cbn [negb orb].
      destruct (Z.leb_spec (len (gcode_lines (state v))) (index (state v)));
        [reflexivity | lia]. }
    rewrite E, ticks_idle; reflexivity. }
  split; [exact (A w H)|]. split; [|intros n; now apply ticks_done].
  intros R P line n O. apply A; unfold on_line_received; rewrite O; cbn; auto.
Qed.

Lemma completion_is_final_witness :
  let w := fst (run [line_received "ok"; timer_timeout; line_received "ok"]
                    (fst (run streaming init))) in
  index (state w) = 2
  /\ running (state (fst (ticks 3 w))) = false
  /\ sent (snd (ticks 5 w)) = [].
Proof.
  cbv zeta.
  set (w := fst (run [line_received "ok"; timer_timeout; line_received "ok"]
                     (fst (run streaming init)))).
  assert (NE : len (gcode_lines (state w)) <= index (state w))
    by (vm_compute; discriminate).
  split; [vm_compute; reflexivity|]. split.
  - refine (proj1 (completion_is_final w NE) _ _ _ 2%nat); vm_compute; reflexivity.
  - exact (proj1 (proj2 (proj2 (completion_is_final w NE)) 5%nat)).
Defined.

(** ** Stop, the worker and a restart *)

Lemma start_rejected w :
  connected w = false -> start_sending w = (w, [warning "Not connected"]).
Proof. unfold start_sending. now intros ->. Qed.










(** C6, as the specification has it, fails: after a stop in the middle of
    the program and an index set back to 0, [start_sending] does not start;
    it warns "Not connected", because [stop_sending] has stopped the
    worker. *)
Lemma restart_after_stop_is_rejected :
  let w := fst (run (streaming ++ [stop_clicked]) init) in
  index (state w) = 1
  /\ start_sending (rewind w) = (rewind w, [warning "Not connected"])
  /\ running (state (fst (start_sending (rewind w)))) = false
  /\ running (state (fst (run [file_opened two_moves; start_clicked] w))) = false.
Proof. cbv zeta. repeat split. Qed.

(** C6 (amended): after [stop_sending] and an index set back to 0,
    [start_sending] is rejected with the warning "Not connected" and the
    loop does not run; when a worker is connected, [start_sending] on the
    rewound program starts the loop and the next [_tick] sends the first
    line of the program to the worker; it moves the index to 1 when
    [update_tool] finds the tool marker where it put it, and leaves it at 0
    when [update_tool] raises. *)
Theorem restart_from_first_line :
  forall w,
    (start_sending (rewind (fst (stop_sending w)))
     = (rewind (fst (stop_sending w)), [warning "Not connected"])
     /\ running (state (fst (start_sending (rewind (fst (stop_sending w)))))) = false)
    /\ (forall line rest,
          connected w = true ->
          gcode_lines (state w) = line :: rest ->
          let w1 := fst (start_sending (rewind w)) in
          running (state w1) = true
          /\ sent (snd (_tick w1)) = [line]
          /\ queue (fst (_tick w1)) = (queue w ++ [line])%list
          /\ index (state (fst (_tick w1))) = (if stale w then 0 else 1)).
Proof.
  intros w. split.
  - assert (C : connected (rewind (fst (stop_sending w))) = false).
    { unfold connected. cbn. now destruct (worker w). }
    rewrite (start_rejected _ C). split; reflexivity.
  - intros line rest C G w1. subst w1.
    unfold start_sending, rewind, with_state, connected in *. cbn.
    destruct (worker w) as [k|] eqn:W; [|discriminate].
    cbn. rewrite C, G. cbn. unfold _tick, stale. cbn. rewrite C.
    unfold queue. rewrite W.
    destruct (tool_marker w) as [m|]; [destruct (marker_detached w)|];
      cbn; repeat split; congruence.
Qed.

Lemma restart_from_first_line_witness :
  let w := fst (run (streaming ++ [stop_clicked; run_returns; connect_clicked;
                                   run_begins]) init) in
  index (state w) = 1
  /\ sent (snd (_tick (fst (start_sending (rewind w))))) = ["G0 X10"].
Proof.
  cbv zeta. split; [reflexivity|].
  refine (proj1 (proj2 (proj2 (restart_from_first_line _) "G0 X10" ["G1 Y5 F100"] _ _)));
    reflexivity.
Defined.

(** ** A tick without connection *)

(** C4, as the specification has it, fails: with the worker disconnected
    while the loop runs, [_tick] still takes the line at the index, moves the
    index and arms the single shot that opens the gate again. *)
Lemma tick_sends_without_connection :
  let w := fst (run [connect_clicked; run_begins; file_opened two_moves;
                     start_clicked; disconnect_clicked] init) in
  connected w = false
  /\ running (state w) = true
  /\ sent (snd (_tick w)) = ["G0 X10"]
  /\ index (state (fst (_tick w))) = index (state w) + 1
  /\ ok_to_send (state (fst (run [timer_timeout; single_shot_timeout] w))) = true
  /\ index (state (fst (run [timer_timeout; single_shot_timeout; timer_timeout] w)))
     = len (gcode_lines (state w)).
Proof. cbv zeta. repeat split. Qed.

(** C4 (amended): when the worker is absent or not connected and the loop
    runs, is not paused, has the gate open and a line left, and the tool
    marker is where [update_tool] finds it, [_tick] puts nothing in the
    queue of a worker, but it takes the line at the index, logs it as sent,
    moves the index by one, closes the gate and arms one single shot of
    [on_line_received("ok")], which opens the gate again when it fires. *)
Theorem tick_without_connection :
  forall w,
    connected w = false ->
    eligible (state w) ->
    stale w = false ->
    exists line,
      getitem (gcode_lines (state w)) (index (state w)) = Some line
      /\ sent (snd (_tick w)) = [line]
      /\ worker (fst (_tick w)) = worker w
      /\ index (state (fst (_tick w))) = index (state w) + 1
      /\ ok_to_send (state (fst (_tick w))) = false
      /\ single_shots (fst (_tick w)) = S (single_shots w)
      /\ ok_to_send (state (fst (step single_shot_timeout (fst (_tick w))))) = true.
Proof.
  intros w C (R & P & K & L0 & L) U.
  destruct (tick_usable w U)
    as [[[E | [E | E]] _] | [(_ & _ & _ & L' & _) | [[L' _] | (line & G & _ & _ & _ & _ & E)]]];
    try congruence; try lia.
  exists line. rewrite E, C. cbn. repeat split; assumption.
Qed.

Lemma tick_without_connection_witness :
  exists line,
    sent (snd (_tick (fst (run [connect_clicked; run_begins; file_opened two_moves;
                                start_clicked; disconnect_clicked] init)))) = [line].
Proof.
  destruct (tick_without_connection
              (fst (run [connect_clicked; run_begins; file_opened two_moves;
                         start_clicked; disconnect_clicked] init)))
    as (line & _ & H & _).
  - reflexivity.
  - unfold eligible. cbn. repeat split; (reflexivity || discriminate).
  - reflexivity.
  - exists line. exact H.
Defined.

(** ** The tool marker *)

(** The marker after a [_tick] that sends a line and moves the marker is
    computed from that line alone: where the marker was before plays no
    part. *)
Lemma tick_marker_of_line w :
  eligible (state w) ->
  stale w = false ->
  exists line,
    getitem (gcode_lines (state w)) (index (state w)) = Some line
    /\ tool_marker (fst (_tick w)) = Some (Axis.tool_of_line line).
Proof.
  intros (R & P & K & L0 & L) U.
  destruct (tick_usable w U)
    as [[[E | [E | E]] _] | [(_ & _ & _ & L' & _) | [[L' _] | (line & G & _ & _ & _ & _ & E)]]];
    try congruence; try lia.
  exists line. rewrite E. now split.
Qed.

(** The scenario of the specification on the simulator: both moves are sent,
    each after the acknowledgment of the one before, then the loop ends with
    the index at 2. *)
Example two_moves_trace :
  let r := run (streaming ++ [line_received "ok"; timer_timeout;
                              line_received "ok"; timer_timeout; timer_timeout])
               init in
  sent (snd r) = ["G0 X10"; "G1 Y5 F100"]
  /\ index (state (fst r)) = 2
  /\ running (state (fst r)) = false.
Proof. cbv zeta. repeat split. Qed.

(** C5 fails on the two moves of the specification's own scenario: the
    second line has no X word, and [_tick] puts the marker at X = 0, not at
    the X = 10 of the line before; [plot_gcode], on the same lines, keeps
    the X and ends its path at (10, 5, 0). *)
Lemma tick_marker_forgets_absent_axes :
  let w1 := fst (run streaming init) in
  let w2 := fst (run [line_received "ok"; timer_timeout] w1) in
  sent (snd (run (streaming ++ [line_received "ok"; timer_timeout]) init))
  = ["G0 X10"; "G1 Y5 F100"]
  /\ tool_marker w1 = Some (10 # 1, 0, 0)%Q
  /\ tool_marker w2 = Some (0, 5 # 1, 0)%Q
  /\ Preview.plot_end (gcode_lines (state w2)) = (10 # 1, 5 # 1, 0)%Q.
Proof. cbv zeta. repeat split. Qed.

(** ** Streaming in the order of the program *)

Lemma getitem_nth {A} (l : list A) i x :
  0 <= i -> getitem l i = Some x -> nth_error l (Z.to_nat i) = Some x.
Proof.
  unfold getitem. intros H.
  destruct (Z.leb_spec 0 i); [trivial | lia].
Qed.

Lemma slice_nil {A} (l : list A) i : slice l i 0 = [].
Proof. reflexivity. Qed.

Lemma slice_one {A} (l : list A) i x : nth_error l i = Some x -> slice l i 1 = [x].
Proof.
  unfold slice. revert l. induction i as [|i IH]; intros [|y l]; cbn; try discriminate.
  - now intros [= ->].
  - apply IH.
Qed.

Lemma firstn_add {A} n m (k : list A) :
  firstn (n + m) k = (firstn n k ++ firstn m (skipn n k))%list.
Proof.
  revert k. induction n as [|n IH]; intros k; [reflexivity|].
  destruct k as [|y k]; cbn.
  - now rewrite firstn_nil.
  - now rewrite IH.
Qed.

Lemma slice_app {A} (l : list A) i n m :
  slice l i (n + m) = (slice l i n ++ slice l (i + n) m)%list.
Proof.
  unfold slice. rewrite firstn_add, skipn_skipn.
  now rewrite (Nat.add_comm n i).
Qed.

(** One event that is not a load: the program is kept, and the lines sent
    are the lines of the program between the old and the new index. *)
Lemma step_slice e w :
  (forall text, e <> file_opened text) ->
  0 <= index (state w) ->
  stale w = false ->
  gcode_lines (state (fst (step e w))) = gcode_lines (state w)
  /\ index (state w) <= index (state (fst (step e w)))
  /\ sent (snd (step e w))
     = slice (gcode_lines (state w)) (Z.to_nat (index (state w)))
             (Z.to_nat (index (state (fst (step e w))) - index (state w)))
  /\ stale (fst (step e w)) = false.
Proof.
  intros NL H0 U.
  destruct e; try (now (exfalso; eapply NL));
    try (revert U; unfold stale; slots; cases; intros; rewrite ?Z.sub_diag;
         repeat split; (reflexivity || lia || congruence)).
  cbn [step]. destruct (timer_active w);
    [|cbn; rewrite Z.sub_diag; repeat split; (reflexivity || lia || assumption)].
  destruct (tick_usable w U)
    as [[_ E] | [(_ & _ & _ & _ & E) | [[_ E] | (line & G & _ & _ & _ & _ & E)]]];
    rewrite E; cbn; rewrite ?Z.sub_diag; repeat split;
    try (reflexivity || lia || assumption).
  replace (index (state w) + 1 - index (state w)) with 1 by lia.
  symmetry. apply slice_one. now apply getitem_nth.
Qed.

Lemma run_slice es :
  forall w,
    Forall (fun e => forall text, e <> file_opened text) es ->
    0 <= index (state w) ->
    stale w = false ->
    gcode_lines (state (fst (run es w))) = gcode_lines (state w)
    /\ index (state w) <= index (state (fst (run es w)))
    /\ sent (snd (run es w))
       = slice (gcode_lines (state w)) (Z.to_nat (index (state w)))
               (Z.to_nat (index (state (fst (run es w))) - index (state w))).
Proof.
  induction es as [|e r IH]; intros w H H0 U; cbn [run].
  - cbn. rewrite Z.sub_diag. repeat split; (reflexivity || lia).
  - inversion H as [|? ? He Hr]; subst.
    destruct (step_slice e w He H0 U) as (S1 & S2 & S3 & U1).
    destruct (step e w) as [w1 c1]. cbn [fst snd] in *.
    destruct (IH w1 Hr ltac:(lia) U1) as (I1 & I2 & I3).
    destruct (run r w1) as [w2 c2]. cbn [fst snd] in *.
    rewrite sent_app, S3, I3, I1, S1.
    split; [reflexivity|]. split; [lia|].
    replace (Z.to_nat (index (state w2) - index (state w)))
      with (Z.to_nat (index (state w1) - index (state w))
            + Z.to_nat (index (state w2) - index (state w1)))%nat by lia.
    rewrite slice_app. do 2 f_equal. lia.
Qed.

(** X1: with the tool marker where [update_tool] finds it, over any run of
    events in which no file is loaded the lines sent are exactly the lines
    of the program from the index before the run to the index after it, in
    the order of the program: no line is skipped, sent twice or sent out of
    order, whatever pauses, stops, restarts and inbound lines the run has. *)
Theorem lines_sent_in_program_order :
  forall es w,
    Forall (fun e => forall text, e <> file_opened text) es ->
    0 <= index (state w) ->
    stale w = false ->
    gcode_lines (state (fst (run es w))) = gcode_lines (state w)
    /\ index (state w) <= index (state (fst (run es w)))
    /\ sent (snd (run es w))
       = slice (gcode_lines (state w)) (Z.to_nat (index (state w)))
               (Z.to_nat (index (state (fst (run es w))) - index (state w))).
Proof. intros es w. apply run_slice. Qed.

Lemma lines_sent_in_program_order_witness :
  sent (snd (run [pause_clicked; line_received "ok"; timer_timeout; pause_clicked;
                  timer_timeout; immediate_clicked "!"; timer_timeout]
                 (fst (run streaming init))))
  = slice ["G0 X10"; "G1 Y5 F100"] 1 1.
Proof.
  refine (proj2 (proj2 (lines_sent_in_program_order _ (fst (run streaming init)) _ _ _))).
  - repeat constructor; discriminate.
  - discriminate.
  - reflexivity.
Defined.

(** ** A whole program, tick by tick *)

Lemma run_app a b w :
  run (a ++ b) w
  = (fst (run b (fst (run a w))), (snd (run a w) ++ snd (run b (fst (run a w))))%list).
Proof.
  revert w. induction a as [|e a IH]; intros w; cbn [run app].
  - cbn. now destruct (run b w).
  - destruct (step e w) as [w1 c1]. rewrite IH.
    destruct (run a w1) as [w2 c2]. cbn [fst snd].
    now rewrite app_assoc.
Qed.

Lemma acknowledged_tick w k :
  streams w k ->
  stale w = false ->
  0 <= index (state w) < len (gcode_lines (state w)) ->
  exists line,
    nth_error (gcode_lines (state w)) (Z.to_nat (index (state w))) = Some line
    /\ sent (snd (run [timer_timeout; line_received "ok"] w)) = [line]
    /\ streams (fst (run [timer_timeout; line_received "ok"] w))
               (send_line line k)
    /\ stale (fst (run [timer_timeout; line_received "ok"] w)) = false
    /\ gcode_lines (state (fst (run [timer_timeout; line_received "ok"] w)))
       = gcode_lines (state w)
    /\ index (state (fst (run [timer_timeout; line_received "ok"] w)))
       = index (state w) + 1.
Proof.
  intros (W & C & R & P & K & T) U [L0 L].
  destruct (tick_usable w U)
    as [[[E | [E | E]] _] | [(_ & _ & _ & L' & _) | [[L' _] | (line & G & _ & _ & _ & _ & E)]]];
    try congruence; try lia.
  exists line. split; [now apply getitem_nth|].
  cbn [run step]. rewrite T, E.
  unfold connected, is_connected. rewrite W, C. cbn.
  unfold streams. cbn. repeat split; assumption.
Qed.

Lemma acknowledged_run n :
  forall w k,
    streams w k ->
    stale w = false ->
    0 <= index (state w) ->
    index (state w) + Z.of_nat n <= len (gcode_lines (state w)) ->
    let r := run (acknowledged_ticks n) w in
    let part := slice (gcode_lines (state w)) (Z.to_nat (index (state w))) n in
    sent (snd r) = part
    /\ streams (fst r) (mkWorker true (_tx k ++ part) (thread k))
    /\ gcode_lines (state (fst r)) = gcode_lines (state w)
    /\ index (state (fst r)) = index (state w) + Z.of_nat n.
Proof.
  induction n as [|n IH]; intros w k St U L0 L r part; subst r part.
  - cbn [acknowledged_ticks run fst snd]. rewrite slice_nil, app_nil_r.
    destruct St as (W & C & St). destruct k as [rn tx th]. cbn in *. subst rn.
    unfold streams. cbn. intuition lia.
  - change (acknowledged_ticks (S n))
      with ([timer_timeout; line_received "ok"] ++ acknowledged_ticks n)%list.
    rewrite run_app. cbn [fst snd].
    destruct (acknowledged_tick w k St U ltac:(lia))
      as (line & N & S1 & S2 & U1 & S3 & S4).
    set (w1 := fst (run [timer_timeout; line_received "ok"] w)) in *.
    destruct (IH w1 (send_line line k) S2 U1 ltac:(lia) ltac:(rewrite S3; lia))
      as (I1 & I2 & I3 & I4).
    rewrite S3, S4 in I1, I2.
    replace (Z.to_nat (index (state w) + 1)) with (Z.to_nat (index (state w)) + 1)%nat
      in * by lia.
    rewrite sent_app, S1, I1, I3, I4, S3, S4.
    change (S n) with (1 + n)%nat. rewrite slice_app, (slice_one _ _ _ N).
    split; [reflexivity|]. split; [|split; [reflexivity | lia]].
    cbn [send_line _tx thread _running] in I2.
    now rewrite <- app_assoc in I2.
Qed.

Lemma slice_all {A} (l : list A) : slice l 0 (length l) = l.
Proof. unfold slice. cbn. apply firstn_all. Qed.

(** X2: with a connected worker, the tool marker where [update_tool]
    finds it and a loaded program at index 0, start followed by one tick and one acknowledgment per line and one more tick
    sends the whole program, each line once and in order, puts exactly these
    lines behind what the worker had queued, leaves the index at the length
    of the program, and ends with the loop stopped and the worker
    disconnected. *)
Theorem program_streams_to_completion :
  forall w,
    connected w = true ->
    stale w = false ->
    gcode_lines (state w) <> [] ->
    index (state w) = 0 ->
    let lines := gcode_lines (state w) in
    let r := run (start_clicked :: acknowledged_ticks (length lines) ++ [timer_timeout]) w in
    sent (snd r) = lines
    /\ index (state (fst r)) = len lines
    /\ running (state (fst r)) = false
    /\ connected (fst r) = false
    /\ queue (fst r) = (queue w ++ lines)%list.
Proof.
  intros w C U NE I0. cbv zeta.
  set (lines := gcode_lines (state w)) in *.
  change (start_clicked :: acknowledged_ticks (length lines) ++ [timer_timeout])
    with ([start_clicked] ++ acknowledged_ticks (length lines) ++ [timer_timeout])%list.
  rewrite run_app, run_app.
  assert (E0 : run [start_clicked] w
               = (mkWindow (mkSenderState lines 0 true false true)
                           (worker w) (tool_marker w) true (single_shots w)
                           (marker_detached w), [])).
  { cbn [run step]. unfold start_sending. rewrite C. cbn [negb].
    fold lines. rewrite I0. destruct lines; [congruence | reflexivity]. }
  rewrite E0. cbn [fst snd].
  set (w0 := mkWindow _ _ _ _ _ _).
  unfold connected in C. destruct (worker w) as [k|] eqn:W; [|discriminate].
  unfold is_connected in C.
  assert (S0 : streams w0 k) by (unfold streams; cbn; repeat split; auto).
  destruct (acknowledged_run (length lines) w0 k S0)
    as (A1 & A2 & A3 & A4); [exact U | cbn; lia | cbn; unfold len; lia|].
  cbn [state gcode_lines index w0] in A1, A2, A3, A4.
  change (Z.to_nat 0) with O in *. rewrite slice_all in *.
  set (w1 := fst (run (acknowledged_ticks (length lines)) w0)) in *.
  destruct A2 as (W1 & _ & R1 & P1 & K1 & T1).
  assert (E1 : run [timer_timeout] w1
               = (fst (stop_sending w1), [log_append Completed])).
  { cbn [run step]. rewrite T1. unfold _tick. rewrite R1, P1, K1. cbn [negb orb].
    rewrite A3, A4.
    destruct (Z.leb_spec (len lines) (0 + Z.of_nat (length lines)));
      [reflexivity | unfold len in *; lia]. }
  rewrite E1. cbn [fst snd app]. rewrite sent_app, A1. cbn [sent app].
  rewrite app_nil_r. unfold stop_sending, connected, queue. cbn. rewrite W1, W.
  cbn. rewrite A4. repeat split.
Qed.

Lemma program_streams_to_completion_witness :
  let w := fst (run [connect_clicked; run_begins; file_opened two_moves] init) in
  sent (snd (run (start_clicked :: acknowledged_ticks 2 ++ [timer_timeout]) w))
  = ["G0 X10"; "G1 Y5 F100"].
Proof.
  cbv zeta.
  refine (proj1 (program_streams_to_completion
                   (fst (run [connect_clicked; run_begins; file_opened two_moves] init))
                   _ _ _ _)).
  - reflexivity.
  - reflexivity.
  - discriminate.
  - reflexivity.
Defined.

(** ** Pause, immediate commands and inbound lines *)

Lemma step_held e w :
  e <> pause_clicked -> e <> start_clicked ->
  held w ->
  held (fst (step e w))
  /\ sent (snd (step e w)) = []
  /\ index (state (fst (step e w))) = index (state w) \/ exists text, e = file_opened text.
Proof.
  unfold held. intros NP NS H.
  destruct e; try congruence;
    try (right; eexists; reflexivity);
    left; slots; cases; finish.
Qed.

Lemma run_held es :
  forall w,
    Forall (fun e => e <> pause_clicked /\ e <> start_clicked) es ->
    held w ->
    sent (snd (run es w)) = [].
Proof.
  induction es as [|e r IH]; intros w H J; cbn [run]; [reflexivity|].
  inversion H as [|? ? [He1 He2] Hr]; subst.
  assert (J1 : held (fst (step e w)) /\ sent (snd (step e w)) = []).
  { destruct (step_held e w He1 He2 J) as [(A & B & _) | (text & ->)]; [now split|].
    cbn [step]. unfold open_gcode.
    destruct (Preview.plot_raises _); split; (reflexivity || (right; reflexivity)). }
  destruct (step e w) as [w1 c1]. cbn [fst snd] in J1. destruct J1 as [J1 S1].
  specialize (IH w1 Hr J1).
  destruct (run r w1) as [w2 c2]. cbn [fst snd] in *.
  now rewrite sent_app, S1, IH.
Qed.

Lemma ticks_paused n :
  forall w, paused (state w) = true -> ticks n w = (w, []).
Proof.
  induction n as [|n IH]; intros w H; cbn [ticks]; [reflexivity|].
  unfold _tick at 1. rewrite H, orb_true_r. now rewrite (IH w H).
Qed.

(** X3: while the loop is paused, [_tick] changes nothing, however often it
    is called, and no run of events without a click on pause or start sends
    a line; pausing twice gives back the window as it was; and pause keeps
    the index, the gate and the worker. *)
Theorem pause_holds_the_stream :
  forall w,
    (paused (state w) = true ->
     (forall n, ticks n w = (w, []))
     /\ (forall es,
           Forall (fun e => e <> pause_clicked /\ e <> start_clicked) es ->
           sent (snd (run es w)) = []))
    /\ (running (state w) = true ->
        fst (pause_sending (fst (pause_sending w))) = w)
    /\ index (state (fst (pause_sending w))) = index (state w)
    /\ ok_to_send (state (fst (pause_sending w))) = ok_to_send (state w)
    /\ worker (fst (pause_sending w)) = worker w.
Proof.
  intros w. split; [|split].
  - intros P. split; [intros n; now apply ticks_paused|].
    intros es H. apply run_held; [exact H | now left].
  - intros R. destruct w as [[l i r p g] k m t n d]. cbn in R. subst r.
    unfold pause_sending, with_state. cbn. now rewrite negb_involutive.
  - unfold pause_sending. destruct (running (state w)); cbn; repeat split.
Qed.

Lemma pause_holds_the_stream_witness :
  let w := fst (run (streaming ++ [pause_clicked]) init) in
  ticks 4 w = (w, [])
  /\ sent (snd (run [line_received "ok"; timer_timeout; immediate_clicked "~";
                     timer_timeout] w)) = []
  /\ fst (pause_sending (fst (pause_sending (fst (run streaming init)))))
     = fst (run streaming init).
Proof.
  cbv zeta. split; [|split].
  - refine (proj1 (proj1 (pause_holds_the_stream _) _) 4%nat). reflexivity.
  - refine (proj2 (proj1 (pause_holds_the_stream _) _) _ _); [reflexivity|].
    repeat constructor; discriminate.
  - refine (proj1 (proj2 (pause_holds_the_stream _)) _). reflexivity.
Defined.

(** X4: [send_immediate] does not look at the gate and does not touch the
    sender state, the marker or the timers; with a connected worker it puts
    the command at the end of the queue of the worker, behind every line
    queued before, and without one it changes nothing and only logs the
    command as simulated; it never counts as a program line sent. *)
Theorem send_immediate_bypasses_gate :
  forall cmd w,
    state (fst (send_immediate cmd w)) = state w
    /\ tool_marker (fst (send_immediate cmd w)) = tool_marker w
    /\ timer_active (fst (send_immediate cmd w)) = timer_active w
    /\ single_shots (fst (send_immediate cmd w)) = single_shots w
    /\ connected (fst (send_immediate cmd w)) = connected w
    /\ sent (snd (send_immediate cmd w)) = []
    /\ (connected w = true ->
        queue (fst (send_immediate cmd w)) = (queue w ++ [cmd])%list
        /\ snd (send_immediate cmd w) = [log_append (SentImmediate cmd)])
    /\ (connected w = false ->
        send_immediate cmd w = (w, [log_append (SimImmediate cmd)])).
Proof.
  intros cmd w. unfold send_immediate, connected, queue, is_connected.
  destruct (worker w) as [k|] eqn:W; [destruct (_running k) eqn:R|];
    cbn; rewrite ?W, ?R; repeat split; congruence.
Qed.

Lemma send_immediate_bypasses_gate_witness :
  let w := fst (run streaming init) in
  ok_to_send (state w) = false
  /\ queue (fst (send_immediate "!" w)) = ["G0 X10"; "!"]
  /\ send_immediate "~" init = (init, [log_append (SimImmediate "~")]).
Proof.
  cbv zeta. split; [reflexivity|]. split.
  - refine (proj1 (proj1 (proj2 (proj2 (proj2 (proj2 (proj2 (proj2
             (send_immediate_bypasses_gate "!" (fst (run streaming init))))))))) _)).
    reflexivity.
  - refine (proj2 (proj2 (proj2 (proj2 (proj2 (proj2 (proj2
             (send_immediate_bypasses_gate "~" init))))))) _).
    reflexivity.
Defined.

Lemma lower_o c : (Str.lower_char c =? "o")%char = ((c =? "o")%char || (c =? "O")%char).
Proof. destruct c as [[] [] [] [] [] [] [] []]; reflexivity. Qed.

Lemma lower_k c : (Str.lower_char c =? "k")%char = ((c =? "k")%char || (c =? "K")%char).
Proof. destruct c as [[] [] [] [] [] [] [] []]; reflexivity. Qed.

(** X5: an inbound line whose characters are all below code point 256
    opens the gate exactly when its text, without the white space around it,
    begins with o or O followed by k or K; such a line changes nothing but
    the gate, and every other line leaves the window as it is.  (Beyond code
    point 255, which the text of this model does not reach, [str.lower] also
    turns the Kelvin sign into k.) *)
Theorem acknowledgment_is_ok_prefix :
  forall line,
    (is_ok line = true <->
     exists a b rest,
       Str.strip line = String a (String b rest)
       /\ (a = "o"%char \/ a = "O"%char) /\ (b = "k"%char \/ b = "K"%char))
    /\ (forall w,
          is_ok line = false ->
          on_line_received line w = (w, [log_append (Received line)]))
    /\ (forall w,
          is_ok line = true ->
          ok_to_send (state (fst (on_line_received line w))) = true
          /\ gcode_lines (state (fst (on_line_received line w))) = gcode_lines (state w)
          /\ index (state (fst (on_line_received line w))) = index (state w)
          /\ running (state (fst (on_line_received line w))) = running (state w)
          /\ paused (state (fst (on_line_received line w))) = paused (state w)
          /\ worker (fst (on_line_received line w)) = worker w
          /\ tool_marker (fst (on_line_received line w)) = tool_marker w).
Proof.
  intros line. split; [|split].
  - unfold is_ok.
    destruct (Str.strip line) as [|a [|b rest]]; cbn [Str.lower Str.startswith].
    + split; [discriminate | intros (? & ? & ? & ? & _); discriminate].
    + rewrite andb_false_r.
      split; [discriminate | intros (? & ? & ? & ? & _); discriminate].
    + rewrite startswith_nil, andb_true_r.
      rewrite (Ascii.eqb_sym "o"%char), (Ascii.eqb_sym "k"%char), lower_o, lower_k.
      rewrite andb_true_iff, !orb_true_iff, !Ascii.eqb_eq.
      split.
      * intros [Ha Hb]. now exists a, b, rest.
      * intros (a' & b' & r' & [= <- <- <-] & Ha & Hb). now split.
  - intros w H. unfold on_line_received. now rewrite H.
  - intros w H. unfold on_line_received. rewrite H. cbn. repeat split.
Qed.

Lemma acknowledgment_is_ok_prefix_witness :
  is_ok "  Ok [MSG:done]" = true
  /\ on_line_received "error:9" init = (init, [log_append (Received "error:9")]).
Proof.
  split.
  - apply (proj2 (proj1 (acknowledgment_is_ok_prefix "  Ok [MSG:done]"))).
    exists "O"%char, "k"%char, " [MSG:done]". repeat split; auto.
  - apply (proj1 (proj2 (acknowledgment_is_ok_prefix "error:9"))). reflexivity.
Defined.

(** ** What a loaded program is made of *)

Lemma append_assoc (a b c : string) : (a ++ b) ++ c = a ++ b ++ c.
Proof. induction a as [|x a IH]; cbn; [reflexivity | now rewrite IH]. Qed.


Lemma rstrip_idem y : Str.rstrip (Str.rstrip y) = Str.rstrip y.
Proof.
  induction y as [|c t IH]; [reflexivity|].
  cbn [Str.rstrip]. destruct (Str.rstrip t) as [|d r] eqn:E.
  - destruct (Str.isspace c) eqn:Hc; [reflexivity|]. cbn. now rewrite Hc.
  - cbn [Str.rstrip] in *. now rewrite IH.
Qed.

Lemma strip_idem x : Str.strip (Str.strip x) = Str.strip x.
Proof.
  unfold Str.strip at 1. rewrite lstrip_strip. unfold Str.strip. apply rstrip_idem.
Qed.

Lemma sub_prefix s : exists post, s = CommentRe.sub s ++ post.
Proof.
  induction s as [|c t [post IH]]; cbn [CommentRe.sub].
  - exists "". now destruct (CommentRe.match_here "").
  - destruct (CommentRe.match_here (String c t)).
    + now exists (String c t).
    + exists post. cbn. now rewrite <- IH.
Qed.

Lemma lstrip_split s :
  exists pre, s = pre ++ Str.lstrip s /\ Str.all_space pre = true.
Proof.
  induction s as [|c t (pre & IH & Hp)]; cbn [Str.lstrip].
  - now exists "".
  - destruct (Str.isspace c) eqn:Hc.
    + exists (String c pre). cbn. rewrite Hc, Hp. now rewrite <- IH.
    + now exists "".
Qed.

Lemma rstrip_split s :
  exists post, s = Str.rstrip s ++ post /\ Str.all_space post = true.
Proof.
  induction s as [|c t (post & IH & Hp)]; cbn [Str.rstrip].
  - now exists "".
  - destruct (Str.rstrip t) as [|d r] eqn:E.
    + destruct (Str.isspace c) eqn:Hc.
      * exists (String c t). split; [reflexivity|]. cbn. rewrite Hc.
        cbn in IH. now subst.
      * exists post. cbn in *. now subst.
    + exists post. cbn in *. now rewrite <- IH.
Qed.

(** X7: what [strip_comment] returns is a piece of the line it was given:
    in front of it only white space was taken away, and behind it the
    comment and white space; no character of the result is changed or
    invented. *)
Theorem strip_comment_is_a_piece :
  forall s,
    exists pre post,
      s = pre ++ strip_comment s ++ post /\ Str.all_space pre = true.
Proof.
  intros s. unfold strip_comment, Str.strip.
  destruct (sub_prefix s) as [p1 E1].
  destruct (lstrip_split (CommentRe.sub s)) as (pre & E2 & Hp).
  destruct (rstrip_split (Str.lstrip (CommentRe.sub s))) as (p2 & E3 & _).
  exists pre, (p2 ++ p1). split; [|exact Hp].
  rewrite <- (append_assoc _ p2 p1), <- E3, <- (append_assoc pre _ p1), <- E2.
  exact E1.
Qed.

Lemma one_line_app a b : one_line (a ++ b) = one_line a && one_line b.
Proof.
  induction a as [|c a IH]; cbn; [reflexivity|].
  now rewrite IH, andb_assoc.
Qed.

Lemma strip_comment_one_line s : one_line s = true -> one_line (strip_comment s) = true.
Proof.
  destruct (strip_comment_is_a_piece s) as (pre & post & E & _).
  intros H. rewrite E, !one_line_app in H.
  apply andb_true_iff in H as [_ H]. now apply andb_true_iff in H as [H _].
Qed.

(** A line boundary: the line read so far is closed, and the scan goes on
    behind the boundary, which is one or two characters long. *)
Lemma splitlines_break acc c t :
  Str.is_linebreak c = true ->
  Str.splitlines_from acc (String c t) = acc :: Str.splitlines_from "" t
  \/ exists t', t = String "010" t'
                /\ Str.splitlines_from acc (String c t)
                   = acc :: Str.splitlines_from "" t'.
Proof.
  intros H. cbn [Str.splitlines_from]. rewrite H.
  destruct c as [[] [] [] [] [] [] [] []]; try discriminate H; try (now left).
  destruct t as [|d t]; [now left|].
  destruct d as [[] [] [] [] [] [] [] []]; try (now left).
  right. now exists t.
Qed.

Lemma splitlines_one_line n :
  forall s acc,
    (String.length s <= n)%nat ->
    one_line acc = true ->
    Forall (fun l => one_line l = true) (Str.splitlines_from acc s).
Proof.
  induction n as [|n IH]; intros s acc L A.
  - destruct s; [|cbn in L; lia]. cbn. destruct acc; repeat constructor; exact A.
  - destruct s as [|c t].
    + cbn. destruct acc; repeat constructor; exact A.
    + cbn [String.length] in L.
      destruct (Str.is_linebreak c) eqn:B.
      * destruct (splitlines_break acc c t B) as [-> | (t' & -> & ->)];
          constructor; try exact A; apply IH; cbn [String.length] in *;
          (lia || reflexivity).
      * cbn [Str.splitlines_from]. rewrite B. apply IH; [lia|].
        rewrite one_line_app, A. cbn. now rewrite B.
Qed.

(** X6: every line of the program that [open_gcode] builds from a text is
    sendable, is not empty, has no white space at either end and contains no
    line boundary, so that it goes out as one line; and the program has at
    most as many lines as the text. *)
Theorem loaded_lines_are_clean :
  forall text,
    Forall (fun l =>
              is_gcode_line l = true /\ l <> "" /\ Str.strip l = l
              /\ one_line l = true)
           (load_program text)
    /\ (length (load_program text) <= length (Str.splitlines text))%nat.
Proof.
  intros text. unfold load_program, load_lines. split.
  - assert (H : Forall (fun l => one_line l = true) (Str.splitlines text))
      by (eapply splitlines_one_line; reflexivity || apply Nat.le_refl).
    induction H as [|l raw Hl _ IH]; [constructor|].
    cbn [filter]. destruct (is_gcode_line l) eqn:G; [|exact IH].
    cbn [map]. constructor; [|exact IH].
    assert (G' : is_gcode_line (strip_comment l) = true)
      by now rewrite is_gcode_line_strip_comment.
    split; [exact G'|]. split; [intros E; now rewrite E in G'|].
    split; [apply strip_idem | now apply strip_comment_one_line].
  - rewrite length_map. apply filter_length_le.
Qed.

Lemma plain_match_here s : plain s = true -> CommentRe.match_here s = false.
Proof.
  induction s as [|c t IH]; [reflexivity|].
  cbn [plain]. intros H. apply andb_true_iff in H as [Hc Ht].
  destruct (Str.isspace c) eqn:S.
  - rewrite (match_here_space _ _ S). now apply IH.
  - unfold CommentRe.match_here. rewrite (lstrip_nonspace _ _ S).
    apply negb_true_iff, orb_false_iff in Hc as [-> ->]. reflexivity.
Qed.

Lemma plain_sub s : plain s = true -> CommentRe.sub s = s.
Proof.
  induction s as [|c t IH]; intros H; cbn [CommentRe.sub].
  - now destruct (CommentRe.match_here "").
  - rewrite (plain_match_here _ H). cbn [plain] in H.
    apply andb_true_iff in H as [_ Ht]. now rewrite (IH Ht).
Qed.

(** X8: on a line in which neither [;] nor [(] occurs, [strip_comment] only
    trims: the result is the line without the white space around it. *)
Theorem strip_comment_without_marks :
  forall s, plain s = true -> strip_comment s = Str.strip s.
Proof. intros s H. unfold strip_comment. now rewrite (plain_sub s H). Qed.

Lemma strip_comment_without_marks_witness :
  strip_comment "  G1 X1 Y2 F300  " = "G1 X1 Y2 F300".
Proof. apply (strip_comment_without_marks "  G1 X1 Y2 F300  "). reflexivity. Defined.

(** ** The source text and its lines *)









(** ** The life of the loop and of the worker *)

Lemma step_lifecycle e w : lifecycle_ok w -> lifecycle_ok (fst (step e w)).
Proof.
  destruct e; slots; cases; unfold lifecycle_ok, option_map; cases;
    unfold new_worker, worker_stop, send_line in *;
    repeat match goal with
           | H : Some _ = Some _ |- _ => injection H as H; subst
           end;
    finish.
Qed.

(** X9: in every state the window can reach, a running loop has an active
    timer, a program that is not empty and a worker; and a worker whose
    thread has not entered [run()] is not connected and has an empty queue,
    so that lines are only ever queued on a worker that is executing or has
    finished. *)
Theorem reachable_lifecycle :
  forall w, reachable w -> lifecycle_ok w.
Proof.
  induction 1 as [|e w _ IH]; [|now apply step_lifecycle].
  unfold lifecycle_ok. cbn. split; [discriminate | trivial].
Qed.

Lemma reachable_lifecycle_witness :
  lifecycle_ok (fst (step connect_clicked init)).
Proof. apply reachable_lifecycle. apply reachable_step, reachable_init. Defined.

(** X10: the connection flag is set by one event only, the thread of the
    worker entering [run()], and is cleared only by stop, disconnect, a new
    worker and the tick that completes the program: a port that cannot be
    opened, a write that fails and a thread that ends leave it as it is. *)
Theorem connection_flag_changes :
  forall e w,
    (connected w = false -> connected (fst (step e w)) = true -> e = run_begins)
    /\ (connected w = true -> connected (fst (step e w)) = false ->
        may_disconnect e = true).
Proof.
  intros e w. split.
  - intros C C'. destruct e; try reflexivity; exfalso;
      revert C C'; slots; cases; finish.
  - intros C C'. destruct e; try reflexivity; exfalso;
      revert C C'; slots; cases; finish.
Qed.

Lemma connection_flag_changes_witness :
  let w := fst (run (streaming ++ [line_received "ok"; timer_timeout]) init) in
  connected w = true
  /\ connected (fst (step write_fails w)) = true
  /\ may_disconnect stop_clicked = true.
Proof.
  cbv zeta. split; [reflexivity|]. split; [reflexivity|].
  refine (proj2 (connection_flag_changes stop_clicked
                   (fst (run (streaming ++ [line_received "ok"; timer_timeout]) init)))
                _ _); reflexivity.
Defined.

Lemma step_idle e w :
  e <> start_clicked ->
  running (state w) = false ->
  running (state (fst (step e w))) = false /\ sent (snd (step e w)) = [].
Proof.
  intros NS R. destruct e; try congruence; slots; cases; finish.
Qed.

(** X11: a loop that is not running sends nothing and stays stopped under
    every run of events without a click on start; this is the state after a
    stop and after a file is loaded, also when the file is loaded in the
    middle of a stream, which keeps the worker and its queue as they are. *)
Theorem idle_until_start :
  forall es w,
    running (state w) = false ->
    Forall (fun e => e <> start_clicked) es ->
    sent (snd (run es w)) = []
    /\ running (state (fst (run es w))) = false
    /\ (forall text,
          running (state (fst (open_gcode text w))) = false
          /\ worker (fst (open_gcode text w)) = worker w)
    /\ running (state (fst (stop_sending w))) = false.
Proof.
  intros es w R H.
  assert (A : sent (snd (run es w)) = [] /\ running (state (fst (run es w))) = false).
  { revert w R. induction H as [|e r He _ IH]; intros w R; cbn [run]; [now split|].
    destruct (step_idle e w He R) as [R1 S1].
    destruct (step e w) as [w1 c1]. cbn [fst snd] in *.
    destruct (IH w1 R1) as [S2 R2].
    destruct (run r w1) as [w2 c2]. cbn [fst snd] in *.
    now rewrite sent_app, S1, S2. }
  destruct A as [A1 A2]. split; [exact A1|]. split; [exact A2|].
  split; [|reflexivity].
  intros text. unfold open_gcode. destruct (Preview.plot_raises _); now split.
Qed.

Lemma idle_until_start_witness :
  sent (snd (run [timer_timeout; line_received "ok"; pause_clicked; timer_timeout;
                  single_shot_timeout; timer_timeout]
                 (fst (run (streaming ++ [file_opened two_moves]) init)))) = [].
Proof.
  refine (proj1 (idle_until_start _ _ _ _)); [reflexivity|].
  repeat constructor; discriminate.
Defined.

(** X12: after a stop in the middle of the program, the thread of the
    stopped worker ending, a new connection and its thread entering
    [run()], start is accepted again and the next tick sends the line at
    which the stream was stopped, not the first one; the new worker starts
    with an empty queue, so this line is all it holds.  The index moves
    past the line when [update_tool] finds the tool marker where it put it,
    and stays when [update_tool] raises. *)
Theorem restart_resumes_at_index :
  forall w k line,
    worker w = Some k ->
    thread k = Executing ->
    0 <= index (state w) ->
    getitem (gcode_lines (state w)) (index (state w)) = Some line ->
    let r := run [stop_clicked; run_returns; connect_clicked; run_begins;
                  start_clicked; timer_timeout] w in
    sent (snd r) = [line]
    /\ index (state (fst r))
       = (if stale w then index (state w) else index (state w) + 1)
    /\ queue (fst r) = [line]
    /\ connected (fst r) = true.
Proof.
  intros w k line W T I0 G. cbv zeta.
  assert (L : index (state w) < len (gcode_lines (state w))).
  { unfold getitem in G. destruct (Z.leb_spec 0 (index (state w))); [|lia].
    assert (N : nth_error (gcode_lines (state w)) (Z.to_nat (index (state w))) <> None)
      by congruence.
    apply nth_error_Some in N. unfold len. lia. }
  assert (NE : gcode_lines (state w) <> []).
  { intros E. rewrite E in L. cbn in L. lia. }
  change [stop_clicked; run_returns; connect_clicked; run_begins; start_clicked;
          timer_timeout]
    with ([stop_clicked; run_returns; connect_clicked; run_begins; start_clicked]
          ++ [timer_timeout])%list.
  rewrite run_app. cbn [fst snd].
  set (w5 := mkWindow
               (mkSenderState (gcode_lines (state w)) (index (state w)) true false true)
               (Some (mkWorker true [] Executing)) (tool_marker w) true
               (single_shots w) (marker_detached w)).
  assert (E5 : fst (run [stop_clicked; run_returns; connect_clicked; run_begins;
                         start_clicked] w) = w5
               /\ sent (snd (run [stop_clicked; run_returns; connect_clicked;
                                  run_begins; start_clicked] w)) = []).
  { cbn [run step]. unfold stop_sending. cbn. rewrite W. cbn. rewrite T. cbn.
    unfold start_sending. cbn.
    destruct (gcode_lines (state w)) as [|l0 ls] eqn:E; [congruence|].
    subst w5. rewrite ?E. now split. }
  destruct E5 as [E5a E5b]. rewrite sent_app, E5a, E5b.
  cbn [run step]. cbn [timer_active w5].
  assert (E6 : _tick w5
               = if stale w
                 then (mkWindow
                         (mkSenderState (gcode_lines (state w)) (index (state w))
                                        true false true)
                         (Some (mkWorker true [line] Executing))
                         (tool_marker w) true (single_shots w) (marker_detached w),
                       [log_append (Sent line); update_tool_raised])
                 else (mkWindow
                         (mkSenderState (gcode_lines (state w)) (index (state w) + 1)
                                        true false false)
                         (Some (mkWorker true [line] Executing))
                         (Some (Axis.tool_of_line line)) true (single_shots w) false,
                       [log_append (Sent line);
                        progress_setValue (index (state w) + 1)])).
  { unfold _tick. cbn.
    destruct (Z.leb_spec (len (gcode_lines (state w))) (index (state w))); [lia|].
    rewrite G. change (stale w5) with (stale w). now destruct (stale w). }
  rewrite E6. destruct (stale w); cbn; repeat split.
Qed.

Lemma restart_resumes_at_index_witness :
  sent (snd (run [stop_clicked; run_returns; connect_clicked; run_begins;
                  start_clicked; timer_timeout]
                 (fst (run (streaming ++ [line_received "ok"]) init))))
  = ["G1 Y5 F100"].
Proof.
  refine (proj1 (restart_resumes_at_index
                   (fst (run (streaming ++ [line_received "ok"]) init))
                   (mkWorker true ["G0 X10"] Executing) "G1 Y5 F100" _ _ _ _));
    (reflexivity || discriminate).
Defined.

(** X13: with the loop not running, [start_sending] starts it exactly when
    the start button, as [_update_buttons] sets it, is enabled and a worker
    is connected; with the button enabled the only refusal is "Not
    connected"; the pause and stop buttons are enabled together, exactly
    while the loop runs, and never together with the start button. *)
Theorem start_button_and_start :
  forall w,
    let b := _update_buttons (state w) in
    (running (state w) = false ->
     (start_enabled b = true /\ connected w = true
      <-> running (state (fst (start_sending w))) = true))
    /\ (start_enabled b = true ->
        start_sending w = (w, [warning "Not connected"])
        \/ running (state (fst (start_sending w))) = true)
    /\ pause_enabled b = running (state w)
    /\ stop_enabled b = running (state w)
    /\ (start_enabled b = true -> pause_enabled b = false).
Proof.
  intros w b. subst b. unfold _update_buttons, start_sending. cbn.
  destruct (running (state w)) eqn:R, (connected w) eqn:C,
    (gcode_lines (state w)) eqn:G; cbn; rewrite ?R;
    repeat split; try tauto; try congruence; intuition congruence.
Qed.

Lemma start_button_and_start_witness :
  let w := fst (run [connect_clicked; run_begins; file_opened two_moves] init) in
  running (state (fst (start_sending w))) = true.
Proof.
  cbv zeta.
  refine (proj1 (proj1 (start_button_and_start _) _) _); [reflexivity|].
  split; reflexivity.
Defined.

(** ** The axis scan *)

Lemma span_digits_spec s :
  all_digits (fst (Axis.span_digits s)) = true
  /\ s = fst (Axis.span_digits s) ++ snd (Axis.span_digits s)
  /\ Axis.span_digits (snd (Axis.span_digits s)) = ("", snd (Axis.span_digits s)).
Proof.
  induction s as [|c t (IH1 & IH2 & IH3)]; [now cbn|].
  cbn [Axis.span_digits]. destruct (Str.isdigit c) eqn:D.
  - destruct (Axis.span_digits t) as [ds r]. cbn in *. rewrite D, IH1.
    repeat split; congruence.
  - cbn. rewrite D. now repeat split.
Qed.

Lemma token_here_spec s tok :
  Axis.token_here s = Some tok ->
  exists c t num,
    s = String c t /\ tok = String c num /\ Axis.is_XYZ c = true /\ numeral num.
Proof.
  destruct s as [|c t]; [discriminate|].
  cbn [Axis.token_here]. destruct (Axis.is_XYZ c) eqn:X; [|discriminate].
  set (st := match t with
             | String "-"%char t' => ("-", t')
             | _ => ("", t)
             end).
  assert (Hs : fst st = "" \/ fst st = "-").
  { subst st. destruct t as [|d t]; [now left|].
    destruct d as [[] [] [] [] [] [] [] []]; cbn; auto. }
  destruct st as [sign t1]. cbn in Hs.
  destruct (span_digits_spec t1) as (D1 & _ & R1).
  destruct (Axis.span_digits t1) as [ds t2]. cbn [fst snd] in *.
  destruct ds as [|d ds]; [discriminate|].
  set (pt := match t2 with
             | String "."%char t' => (".", t')
             | _ => ("", t2)
             end).
  assert (Hp : fst pt = "" /\ snd pt = t2 \/ fst pt = ".").
  { subst pt. destruct t2 as [|e t2]; [now left|].
    destruct e as [[] [] [] [] [] [] [] []]; cbn; auto. }
  destruct pt as [point t3]. cbn in Hp.
  destruct (span_digits_spec t3) as (D3 & _ & _).
  destruct (Axis.span_digits t3) as [fs r3] eqn:E3. cbn [fst snd] in *.
  intros [= <-]. exists c, t, (sign ++ String d ds ++ point ++ fs).
  repeat split; [exact X|].
  exists sign, (String d ds), point, fs.
  repeat split; try assumption; try discriminate.
  destruct Hp as [[-> ->] | ->]; [left | now right].
  rewrite R1 in E3. now injection E3 as <- _.
Qed.

Lemma findall_from_spec s :
  forall k,
    Forall (fun tok => exists c num,
                tok = String c num /\ Axis.is_XYZ c = true /\ numeral num
                /\ absent c s = false)
           (Axis.findall_from k s).
Proof.
  induction s as [|c t IH]; intros k; [constructor|].
  assert (W : forall j,
             Forall (fun tok => exists c0 num,
                         tok = String c0 num /\ Axis.is_XYZ c0 = true /\ numeral num
                         /\ absent c0 (String c t) = false)
                    (Axis.findall_from j t)).
  { intros j. eapply Forall_impl; [|apply (IH j)].
    intros tok (c0 & num & E & X & N & A). exists c0, num.
    repeat split; try assumption. cbn. now rewrite A, andb_false_r. }
  cbn [Axis.findall_from]. destruct k as [|k]; [|apply W].
  destruct (Axis.token_here (String c t)) as [tok|] eqn:T; [|apply W].
  constructor; [|apply W].
  destruct (token_here_spec _ _ T) as (c0 & t0 & num & [= <- <-] & -> & X & N).
  exists c, num. repeat split; try assumption.
  cbn. now rewrite Ascii.eqb_refl.
Qed.

(** X14: every match of the axis scan of [_tick] is an axis letter X, Y or
    Z that occurs in the text scanned, followed by a numeral that [float]
    reads (an optional sign, digits, maybe a point and more digits): the
    conversion of the matches cannot fail, and no other key reaches the
    coordinates. *)
Theorem axis_scan_yields_numerals :
  forall s,
    Forall (fun tok => exists c num,
                tok = String c num /\ Axis.is_XYZ c = true /\ numeral num
                /\ absent c s = false)
           (Axis.findall s).
Proof. intros s. apply findall_from_spec. Qed.

Lemma dict_get_set k k' v d default :
  (k' =? k)%char = false ->
  Axis.dict_get k (Axis.dict_set k' v d) default = Axis.dict_get k d default.
Proof.
  intros N. induction d as [|[k0 v0] d IH]; cbn.
  - now rewrite N.
  - destruct (k0 =? k')%char eqn:E; cbn.
    + apply Ascii.eqb_eq in E as ->. now rewrite N.
    + now rewrite IH.
Qed.

Lemma coords_fold_absent a s m :
  absent a s = true ->
  Forall (fun tok => exists c num, tok = String c num /\ absent c s = false) m ->
  forall d default,
    Axis.dict_get a
      (fold_left
         (fun d c =>
            match c with
            | String k num => Axis.dict_set k (Axis.float num) d
            | EmptyString => d
            end) m d) default
    = Axis.dict_get a d default.
Proof.
  intros A H. induction H as [|tok m (c & num & -> & Hc) _ IH]; intros d default;
    [reflexivity|].
  cbn [fold_left]. rewrite IH. apply dict_get_set.
  destruct (c =? a)%char eqn:E; [|reflexivity].
  apply Ascii.eqb_eq in E as ->. congruence.
Qed.

Lemma tool_axis_absent a line default :
  absent a (Str.upper line) = true ->
  Axis.dict_get a (Axis.coords_of (Axis.findall (Str.upper line))) default = default.
Proof.
  intros A. unfold Axis.coords_of.
  rewrite (coords_fold_absent a (Str.upper line)); [reflexivity | exact A |].
  eapply Forall_impl; [|apply (findall_from_spec (Str.upper line) 0)].
  intros tok (c & num & E & _ & _ & Hc). now exists c, num.
Qed.

(** X15: for an axis letter that does not occur in the line, in either
    case, the coordinate that [_tick] passes to [update_tool] is 0, whatever
    the marker showed before; a line without any axis letter puts the marker
    at the origin. *)
Theorem tick_marker_defaults_to_zero :
  forall line,
    (absent "X" (Str.upper line) = true -> fst (fst (Axis.tool_of_line line)) = 0%Q)
    /\ (absent "Y" (Str.upper line) = true -> snd (fst (Axis.tool_of_line line)) = 0%Q)
    /\ (absent "Z" (Str.upper line) = true -> snd (Axis.tool_of_line line) = 0%Q).
Proof.
  intros line. unfold Axis.tool_of_line. cbn [fst snd].
  repeat split; intros A; now apply tool_axis_absent.
Qed.

Lemma tick_marker_defaults_to_zero_witness :
  fst (fst (Axis.tool_of_line "G1 y5 F100")) = 0%Q
  /\ snd (Axis.tool_of_line "M3 S1000") = 0%Q.
Proof.
  split.
  - apply (proj1 (tick_marker_defaults_to_zero "G1 y5 F100")). reflexivity.
  - apply (proj2 (proj2 (tick_marker_defaults_to_zero "M3 S1000"))). reflexivity.
Defined.

(** ** The path of the preview *)

Lemma search_absent a s : absent a s = true -> Preview.search a s = None.
Proof.
  induction s as [|c t IH]; intros A; [reflexivity|].
  cbn [absent] in A. apply andb_true_iff in A as [Hc Ht].
  apply negb_true_iff in Hc.
  cbn [Preview.search Preview.group_here]. rewrite Hc. now apply IH.
Qed.

Lemma get_absent a s default :
  absent a s = true -> Preview.get s a default = default.
Proof. intros A. unfold Preview.get. now rewrite (search_absent a s A). Qed.

(** X16: [plot_gcode] moves only on G0 and G1 lines, and on such a line an
    axis whose letter does not occur keeps the coordinate of the line
    before: one turn of its loop leaves the X (the Y, the Z) of the path
    where it was when the upper-cased line without its comment has no X (no
    Y, no Z). *)
Theorem plot_keeps_absent_axes :
  forall p ln,
    let s := Str.upper (strip_comment ln) in
    (absent "X" s = true -> fst (fst (Preview.plot_line p ln)) = fst (fst p))
    /\ (absent "Y" s = true -> snd (fst (Preview.plot_line p ln)) = snd (fst p))
    /\ (absent "Z" s = true -> snd (Preview.plot_line p ln) = snd p)
    /\ (Str.startswith s "G0" = false -> Str.startswith s "G1" = false ->
        Preview.plot_line p ln = p).
Proof.
  intros [[x y] z] ln s. subst s. unfold Preview.plot_line.
  set (s := Str.upper (strip_comment ln)).
  destruct (is_gcode_line s); cbn [negb];
    destruct (Str.startswith s "G0" || Str.startswith s "G1") eqn:G; cbn [fst snd];
    repeat split; try reflexivity; try (intros A; now apply get_absent).
  intros G0 G1. rewrite G0, G1 in G. discriminate.
Qed.

Lemma plot_keeps_absent_axes_witness :
  fst (fst (Preview.plot_line (10 # 1, 0, 0)%Q "g1 y5 f100 ; feed")) = (10 # 1)%Q
  /\ Preview.plot_line (10 # 1, 5 # 1, 0)%Q "M5 X0" = (10 # 1, 5 # 1, 0)%Q.
Proof.
  split.
  - apply (proj1 (plot_keeps_absent_axes (10 # 1, 0, 0)%Q "g1 y5 f100 ; feed")).
    reflexivity.
  - apply (proj2 (proj2 (proj2 (plot_keeps_absent_axes (10 # 1, 5 # 1, 0)%Q "M5 X0"))));
      reflexivity.
Defined.

(** ** The command line *)

Lemma cli_lower_idem s : Cli.lower (Cli.lower s) = Cli.lower s.
Proof.
  induction s as [|c t IH]; [reflexivity|].
  cbn [Cli.lower]. rewrite IH. f_equal.
  destruct c as [[] [] [] [] [] [] [] []]; reflexivity.
Qed.

Lemma list_index_absent x l : ~ In x l -> Cli.list_index x l = None.
Proof.
  induction l as [|y l IH]; intros N; [reflexivity|].
  cbn [Cli.list_index]. destruct (y =? x)%string eqn:E.
  - apply String.eqb_eq in E. exfalso. apply N. now left.
  - rewrite IH; [reflexivity|]. intros H. apply N. now right.
Qed.

Lemma list_index_first x pre post :
  ~ In x pre -> Cli.list_index x (pre ++ x :: post) = Some (length pre).
Proof.
  induction pre as [|y pre IH]; intros N; cbn [Cli.list_index app length].
  - now rewrite String.eqb_refl.
  - destruct (y =? x)%string eqn:E.
    + apply String.eqb_eq in E. exfalso. apply N. now left.
    + rewrite IH; [reflexivity|]. intros H. apply N. now right.
Qed.

(** X17: the command line that [launch_tool] of main.py builds is read back
    by sender.py: when the path of the tool is not one of the two flags and
    the theme is not the text "--color", the sender starts with the theme
    and the color of the launcher, in lower case. *)
Theorem launcher_options_round_trip :
  forall path theme color,
    path <> "--theme" -> path <> "--color" -> theme <> "--color" ->
    Cli.parse (Cli.launch_argv path theme color)
    = (Cli.lower theme, Cli.lower color).
Proof.
  intros path theme color P1 P2 T. unfold Cli.parse, Cli.launch_argv, Cli.option_value.
  assert (E1 := list_index_first "--theme" [path] [theme; "--color"; color]).
  assert (E2 := list_index_first "--color" [path; "--theme"; theme] [color]).
  cbn [app length] in E1, E2.
  rewrite E1, E2; [reflexivity | cbn; intuition congruence ..].
Qed.

Lemma launcher_options_round_trip_witness :
  Cli.parse (Cli.launch_argv "tools/sender.py" "Dark" "grey") = ("dark", "grey").
Proof.
  apply (launcher_options_round_trip "tools/sender.py" "Dark" "grey"); discriminate.
Defined.

(** X18: an option of the command line keeps its default ("dark" for the
    theme, "grey" for the color) when its flag is not among the arguments
    and when the first occurrence of the flag is the last argument; in every
    case the value the sender starts with is in lower case; and the value is
    the argument behind the first occurrence of the flag, so a later
    occurrence is not looked at. *)
Theorem option_defaults :
  forall flag default argv,
    (~ In flag argv -> Cli.option_value flag default argv = default)
    /\ (forall pre, ~ In flag pre ->
          Cli.option_value flag default (pre ++ [flag]) = default)
    /\ (forall pre v post, ~ In flag pre ->
          Cli.option_value flag default (pre ++ flag :: v :: post) = Cli.lower v)
    /\ (Cli.lower default = default ->
        Cli.lower (Cli.option_value flag default argv)
        = Cli.option_value flag default argv).
Proof.
  intros flag default argv. unfold Cli.option_value. split; [|split; [|split]].
  - intros N. now rewrite (list_index_absent _ _ N).
  - intros pre N. rewrite (list_index_first _ _ _ N).
    replace (nth_error (pre ++ [flag]) (S (length pre))) with (@None string);
      [reflexivity|].
    symmetry. apply nth_error_None. rewrite length_app. cbn. lia.
  - intros pre v post N. rewrite (list_index_first _ _ _ N).
    replace (pre ++ flag :: v :: post)%list with ((pre ++ [flag]) ++ v :: post)%list
      by now rewrite <- app_assoc.
    replace (S (length pre)) with (length (pre ++ [flag]) + 0)%nat
      by (rewrite length_app; cbn; lia).
    now rewrite nth_error_app2, Nat.add_comm, Nat.add_sub by lia.
  - intros D. destruct (Cli.list_index flag argv) as [i|]; [|exact D].
    destruct (nth_error argv (S i)); [apply cli_lower_idem | exact D].
Qed.

Lemma option_defaults_witness :
  Cli.option_value "--theme" "dark"
    ["sender.py"; "--color"; "RED"; "--color"; "blue"; "--theme"] = "dark"
  /\ Cli.option_value "--color" "grey"
       ["sender.py"; "--color"; "RED"; "--color"; "blue"; "--theme"] = "red".
Proof.
  split.
  - apply (proj1 (proj2 (option_defaults "--theme" "dark" []))
             ["sender.py"; "--color"; "RED"; "--color"; "blue"]).
    cbn. intuition discriminate.
  - apply (proj1 (proj2 (proj2 (option_defaults "--color" "grey" [])))
             ["sender.py"] "RED" ["--color"; "blue"; "--theme"]).
    cbn. intuition discriminate.
Defined.

(** ** The preview and the program *)

Lemma upper_space c : Str.isspace (Str.upper_char c) = Str.isspace c.
Proof. destruct c as [[] [] [] [] [] [] [] []]; reflexivity. Qed.

Lemma lstrip_upper s : Str.lstrip (Str.upper s) = Str.upper (Str.lstrip s).
Proof.
  induction s as [|c t IH]; [reflexivity|].
  cbn [Str.upper Str.lstrip]. rewrite upper_space.
  now destruct (Str.isspace c).
Qed.

Lemma upper_head c :
  (is_GMT c = true -> is_GMT (Str.upper_char c) = true)
  /\ (Str.isdigit c = true -> Str.isdigit (Str.upper_char c) = true)
  /\ ((c =? "#")%char = true -> (Str.upper_char c =? "#")%char = true).
Proof. destruct c as [[] [] [] [] [] [] [] []]; repeat split; trivial. Qed.

Lemma sendable_head_upper s :
  sendable_head s = true -> sendable_head (Str.upper s) = true.
Proof.
  destruct s as [|c r]; [discriminate|].
  cbn [sendable_head Str.upper]. intros H.
  apply orb_true_iff in H as [H | H]; apply orb_true_iff.
  - left. apply andb_true_iff in H as [G D]. apply andb_true_iff. split.
    + now apply upper_head.
    + destruct r as [|d r]; [discriminate|]. cbn. now apply upper_head.
  - right. now apply upper_head.
Qed.

Lemma is_gcode_line_upper s :
  is_gcode_line s = true -> is_gcode_line (Str.upper s) = true.
Proof.
  rewrite !is_gcode_line_head, lstrip_upper. apply sendable_head_upper.
Qed.

(** X19: every line of a program that [open_gcode] has loaded passes the
    test that [plot_gcode] makes on it (the line without comment, in upper
    case, is a G-code line), so the preview skips no line of a loaded
    program; and upper case never turns a sendable line into one that is
    not. *)
Theorem preview_reads_every_program_line :
  forall text,
    Forall (fun l => is_gcode_line (Str.upper (strip_comment l)) = true)
           (load_program text)
    /\ (forall s, is_gcode_line s = true -> is_gcode_line (Str.upper s) = true).
Proof.
  intros text. split; [|exact is_gcode_line_upper].
  unfold load_program, load_lines.
  induction (Str.splitlines text) as [|l raw IH]; [constructor|].
  cbn [filter]. destruct (is_gcode_line l) eqn:G; [|exact IH].
  cbn [map]. constructor; [|exact IH].
  apply is_gcode_line_upper. now rewrite !is_gcode_line_strip_comment.
Qed.

Lemma preview_reads_every_program_line_witness :
  is_gcode_line (Str.upper "G1 x5 (feed)") = true.
Proof.
  apply (proj2 (preview_reads_every_program_line "") "G1 x5 (feed)"). reflexivity.
Defined.

(** ** A stream without connection *)

Lemma simulated_tick w :
  streams_alone w ->
  stale w = false ->
  0 <= index (state w) < len (gcode_lines (state w)) ->
  exists line,
    nth_error (gcode_lines (state w)) (Z.to_nat (index (state w))) = Some line
    /\ sent (snd (run [timer_timeout; single_shot_timeout] w)) = [line]
    /\ streams_alone (fst (run [timer_timeout; single_shot_timeout] w))
    /\ stale (fst (run [timer_timeout; single_shot_timeout] w)) = false
    /\ gcode_lines (state (fst (run [timer_timeout; single_shot_timeout] w)))
       = gcode_lines (state w)
    /\ index (state (fst (run [timer_timeout; single_shot_timeout] w)))
       = index (state w) + 1
    /\ worker (fst (run [timer_timeout; single_shot_timeout] w)) = worker w
    /\ single_shots (fst (run [timer_timeout; single_shot_timeout] w))
       = single_shots w.
Proof.
  intros (C & R & P & K & T) U [L0 L].
  destruct (tick_usable w U)
    as [[[E | [E | E]] _] | [(_ & _ & _ & L' & _) | [[L' _] | (line & G & _ & _ & _ & _ & E)]]];
    try congruence; try lia.
  exists line. split; [now apply getitem_nth|].
  cbn [run step]. rewrite T, E, C. cbn.
  unfold streams_alone, connected in *. cbn. repeat split; assumption.
Qed.

Lemma simulated_run n :
  forall w,
    streams_alone w ->
    stale w = false ->
    0 <= index (state w) ->
    index (state w) + Z.of_nat n <= len (gcode_lines (state w)) ->
    let r := run (simulated_ticks n) w in
    sent (snd r) = slice (gcode_lines (state w)) (Z.to_nat (index (state w))) n
    /\ streams_alone (fst r)
    /\ gcode_lines (state (fst r)) = gcode_lines (state w)
    /\ index (state (fst r)) = index (state w) + Z.of_nat n
    /\ worker (fst r) = worker w
    /\ single_shots (fst r) = single_shots w.
Proof.
  induction n as [|n IH]; intros w St U L0 L r; subst r.
  - cbn [simulated_ticks run fst snd]. rewrite slice_nil. intuition lia.
  - change (simulated_ticks (S n))
      with ([timer_timeout; single_shot_timeout] ++ simulated_ticks n)%list.
    rewrite run_app. cbn [fst snd].
    destruct (simulated_tick w St U ltac:(lia))
      as (line & N & S1 & S2 & U1 & S3 & S4 & S5 & S6).
    set (w1 := fst (run [timer_timeout; single_shot_timeout] w)) in *.
    destruct (IH w1 S2 U1 ltac:(lia) ltac:(rewrite S3; lia))
      as (I1 & I2 & I3 & I4 & I5 & I6).
    rewrite S3, S4 in I1.
    replace (Z.to_nat (index (state w) + 1)) with (Z.to_nat (index (state w)) + 1)%nat
      in * by lia.
    rewrite sent_app, S1, I1, I3, I4, I5, I6, S3, S4, S5, S6.
    change (S n) with (1 + n)%nat. rewrite slice_app, (slice_one _ _ _ N).
    split; [reflexivity|]. split; [exact I2|]. split; [reflexivity|].
    split; [lia|]. split; reflexivity.
Qed.

(** X20: a loop that runs without a connected worker (as after a
    disconnect in the middle of a stream), with the tool marker where
    [update_tool] finds it, goes through the whole rest of the program by
    itself: each tick is acknowledged by the single shot it armed, so one
    tick and one single shot per line, and one more tick, log every
    remaining line as sent in order, leave the queue of the worker and the
    number of pending single shots as they were, and end with the index at
    the length of the program and the loop stopped. *)
Theorem simulated_stream_completes :
  forall w,
    streams_alone w ->
    stale w = false ->
    0 <= index (state w) <= len (gcode_lines (state w)) ->
    let lines := gcode_lines (state w) in
    let i := Z.to_nat (index (state w)) in
    let r := run (simulated_ticks (length lines - i) ++ [timer_timeout]) w in
    sent (snd r) = skipn i lines
    /\ index (state (fst r)) = len lines
    /\ running (state (fst r)) = false
    /\ queue (fst r) = queue w
    /\ single_shots (fst r) = single_shots w.
Proof.
  intros w St U [L0 L]. cbv zeta.
  set (lines := gcode_lines (state w)) in *.
  set (i := Z.to_nat (index (state w))).
  rewrite run_app. cbn [fst snd].
  destruct (simulated_run (length lines - i) w St U L0)
    as (A1 & A2 & A3 & A4 & A5 & A6); [fold lines; unfold len in *; lia|].
  fold lines in A1, A3. fold i in A1.
  set (w1 := fst (run (simulated_ticks (length lines - i)) w)) in *.
  destruct A2 as (C1 & R1 & P1 & K1 & T1).
  assert (E1 : run [timer_timeout] w1
               = (fst (stop_sending w1), [log_append Completed])).
  { cbn [run step]. rewrite T1. unfold _tick. rewrite R1, P1, K1. cbn [negb orb].
    rewrite A3, A4.
    destruct (Z.leb_spec (len lines) (index (state w) + Z.of_nat (length lines - i)));
      [reflexivity | unfold len in *; lia]. }
  rewrite E1, sent_app, A1. cbn [fst snd sent]. rewrite app_nil_r.
  unfold stop_sending, queue. cbn. rewrite A4, A5, A6.
  split; [|split; [unfold len in *; lia | split; [reflexivity | split; [|reflexivity]]]].
  - unfold slice. apply firstn_all2. rewrite length_skipn. lia.
  - now destruct (worker w).
Qed.

Lemma simulated_stream_completes_witness :
  let w := fst (run (streaming ++ [disconnect_clicked; line_received "ok"]) init) in
  sent (snd (run (simulated_ticks 1 ++ [timer_timeout]) w)) = ["G1 Y5 F100"].
Proof.
  cbv zeta.
  refine (proj1 (simulated_stream_completes
                   (fst (run (streaming ++ [disconnect_clicked; line_received "ok"]) init))
                   _ _ _)).
  - unfold streams_alone. cbn. repeat split.
  - reflexivity.
  - cbn. lia.
Defined.

(** ** A load that fails and the ticks after it *)

Lemma far_move_stripped : strip_comment far_move = far_move.
Proof.
  unfold strip_comment. rewrite (plain_sub far_move); vm_compute; reflexivity.
Qed.

Lemma far_move_loads : load_program far_move = [far_move].
Proof.
  unfold load_program.
  replace (Str.splitlines far_move) with [far_move] by (vm_compute; reflexivity).
  unfold load_lines. cbn [filter].
  replace (is_gcode_line far_move) with true by (vm_compute; reflexivity).
  cbn [map]. now rewrite far_move_stripped.
Qed.

Lemma far_move_raises : Preview.plot_raises [far_move] = true.
Proof.
  unfold Preview.plot_raises. cbn [Preview.plot_points].
  unfold Preview.plot_line. rewrite far_move_stripped.
  vm_compute. reflexivity.
Qed.

(** With a stale marker a tick that has a line to send changes nothing but
    the queue of the worker. *)
Lemma stale_tick w :
  stale w = true ->
  eligible (state w) ->
  exists line,
    getitem (gcode_lines (state w)) (index (state w)) = Some line
    /\ _tick w
       = (mkWindow (state w)
                   (if connected w then option_map (send_line line) (worker w)
                    else worker w)
                   (tool_marker w) (timer_active w) (single_shots w)
                   (marker_detached w),
          [log_append (Sent line); update_tool_raised]).
Proof.
  intros U (R & P & K & L0 & L).
  destruct (tick_cases w)
    as [[[E | [E | E]] _] | [(_ & _ & _ & L' & _) | [[L' _]
        | (line & G & _ & _ & _ & _ & [[U' _] | [_ E]])]]];
    try congruence; try lia.
  exists line. now split.
Qed.

Lemma stale_ticks n :
  forall w line,
    stale w = true ->
    eligible (state w) ->
    getitem (gcode_lines (state w)) (index (state w)) = Some line ->
    sent (snd (ticks n w)) = repeat line n
    /\ state (fst (ticks n w)) = state w.
Proof.
  induction n as [|n IH]; intros w line U H G; cbn [ticks repeat]; [now split|].
  destruct (stale_tick w U H) as (line' & G' & E).
  assert (line' = line) by congruence. subst line'.
  rewrite E.
  set (w1 := mkWindow _ _ _ _ _ _).
  destruct (IH w1 line U H G) as [I1 I2].
  destruct (ticks n w1) as [w2 c2]. cbn [fst snd] in *.
  cbn [sent app]. now rewrite I1, I2.
Qed.

(** C9 fails in the code after a load whose plot raises while a marker is
    on the axes: the state is that of the new program, which satisfies the
    invariant, and the marker is left off the axes; after start, [_tick]
    queues and logs its line, then [update_tool] raises before [index += 1]
    and before the gate is closed.  A line is accepted and the index has not
    moved; and every further call of [_tick] sends the same line again, the
    index staying at 0. *)
Theorem line_sent_and_index_kept :
  forall w text line rest,
    connected w = true ->
    tool_marker w <> None ->
    load_program text = line :: rest ->
    Preview.plot_raises (load_program text) = true ->
    let w1 := fst (run [file_opened text; start_clicked] w) in
    state_ok (state w1)
    /\ snd (_tick w1) = [log_append (Sent line); update_tool_raised]
    /\ queue (fst (_tick w1)) = (queue w ++ [line])%list
    /\ index (state (fst (_tick w1))) = index (state w1)
    /\ ok_to_send (state (fst (_tick w1))) = true
    /\ (forall n,
          sent (snd (ticks n w1)) = repeat line n
          /\ index (state (fst (ticks n w1))) = 0).
Proof.
  intros w text line rest C M L F w1.
  destruct (tool_marker w) as [m|] eqn:Em; [clear M | congruence].
  assert (E1 : w1 = mkWindow (mkSenderState (line :: rest) 0 true false true)
                             (worker w) (Some m) true (single_shots w) true).
  { subst w1. cbn [run step]. unfold open_gcode. rewrite F, L, Em. cbn [fst].
    unfold start_sending, connected in *. cbn. now rewrite C. }
  assert (U : stale w1 = true) by now rewrite E1.
  assert (H : eligible (state w1)).
  { rewrite E1. unfold eligible, len. cbn. repeat split; lia. }
  assert (G : getitem (gcode_lines (state w1)) (index (state w1)) = Some line)
    by now rewrite E1.
  destruct (stale_tick w1 U H) as (line' & G' & E).
  assert (line' = line) by congruence. subst line'.
  split; [|split; [|split; [|split; [|split]]]].
  - rewrite E1. unfold state_ok, len. cbn. split; [lia | discriminate].
  - now rewrite E.
  - rewrite E. unfold queue. cbn [fst worker].
    assert (C1 : connected w1 = true) by now rewrite E1.
    rewrite C1, E1. cbn [worker]. unfold connected in C.
    now destruct (worker w).
  - now rewrite E.
  - rewrite E, E1. reflexivity.
  - intros n. destruct (stale_ticks n w1 line U H G) as [S1 S2].
    split; [exact S1|]. rewrite S2, E1. reflexivity.
Qed.

Lemma line_sent_and_index_kept_witness :
  let w := fst (run [connect_clicked; run_begins; file_opened two_moves] init) in
  let w1 := fst (run [file_opened far_move; start_clicked] w) in
  snd (_tick w1) = [log_append (Sent far_move); update_tool_raised]
  /\ index (state (fst (_tick w1))) = index (state w1)
  /\ sent (snd (ticks 3 w1)) = [far_move; far_move; far_move]
  /\ index (state (fst (ticks 3 w1))) = 0.
Proof.
  cbv zeta.
  destruct (line_sent_and_index_kept
              (fst (run [connect_clicked; run_begins; file_opened two_moves] init))
              far_move far_move [])
    as (_ & T1 & _ & T2 & _ & T3).
  - vm_compute. reflexivity.
  - vm_compute. discriminate.
  - exact far_move_loads.
  - rewrite far_move_loads. exact far_move_raises.
  - split; [exact T1|]. split; [exact T2|]. exact (T3 3%nat).
Defined.
